(** * NutriVision: the nutrition core, the API client and the meal ledger

    A shallow embedding of

    - [src/lib/nutrition-logic.ts]  (BMR, TDEE, the Food-101 calorie table),
    - the API client ([APIClient.predictFood], [APIClient.getCoachingTip]),
    - the nutrition context ([setProfile], [addMeal], [removeMeal],
      [getTodaysMeals], [getTodaysSummary]),

    together with the properties the specification states about them.

    Conventions of the embedding.

    - A JavaScript [number] is an IEEE 754 binary64 value: Rocq's primitive
      [float], whose [+], [-], [*], [/] are the operations JavaScript uses.
    - A JavaScript [string] is a Rocq [string]; a character stands for a
      UTF-16 code unit below 256 (the Latin-1 range, which contains every
      label of the Food-101 table).
    - An object literal used as a dictionary is a [gmap] of its own
      properties; reading [obj[key]] also consults [Object.prototype].
    - An [async] function is a function into [settled]: the promise it
      returns is either fulfilled with a value or rejected with a reason.
      What the outside world does (the clock, the HTTP exchange, the
      durable store) is an explicit argument. *)

From Stdlib Require Import PrimFloat FloatOps SpecFloat ZArith Ascii String.
From Stdlib Require FloatAxioms.
From stdpp Require Import gmap strings list pretty.

Set Warnings "-inexact-float,-register-all".

Local Open Scope string_scope.
Local Open Scope Z_scope.

(** ** JavaScript values used by the program *)

Module JS.

(** *** Strings *)

Definition code (c : ascii) : N := N_of_ascii c.

(** [String.prototype.toLowerCase] on one code unit of the Latin-1 range:
    A-Z, and the accented capitals U+00C0-U+00DE except the multiplication
    sign U+00D7, move 32 places up. *)
Definition lower_char (c : ascii) : ascii :=
  let n := code c in
  if ((65 <=? n) && (n <=? 90))%N then ascii_of_N (n + 32)
  else if ((192 <=? n) && (n <=? 222) && negb (n =? 215))%N
       then ascii_of_N (n + 32)
  else c.

Fixpoint toLowerCase (s : string) : string :=
  match s with
  | EmptyString => EmptyString
  | String c s' => String (lower_char c) (toLowerCase s')
  end.

(** The class [\s] of a regular expression, below U+0100: TAB, LF, VT, FF,
    CR, SPACE and NO-BREAK SPACE. *)
Definition is_whitespace (c : ascii) : bool :=
  let n := code c in
  (((9 <=? n) && (n <=? 13)) || (n =? 32) || (n =? 160))%N.

(** [s.replace(/\s+/g, '_')]: every maximal run of whitespace becomes one
    underscore.  [in_run] tells that the previous character was whitespace
    (and so that the underscore of this run is already written). *)
Fixpoint replace_ws_from (in_run : bool) (s : string) : string :=
  match s with
  | EmptyString => EmptyString
  | String c s' =>
      if is_whitespace c
      then (if in_run then replace_ws_from true s'
            else String "_" (replace_ws_from true s'))
      else String c (replace_ws_from false s')
  end.

Definition replace_whitespace_runs (s : string) : string :=
  replace_ws_from false s.

(** *** Numbers *)

Definition is_NaN (x : float) : bool := negb (PrimFloat.eqb x x).

(** [ToBoolean] of a number: every number but [+0], [-0] and [NaN]. *)
Definition truthy_number (x : float) : bool :=
  negb (PrimFloat.eqb x 0%float) && negb (is_NaN x).

Definition is_finite (x : float) : bool :=
  match Prim2SF x with
  | S754_zero _ | S754_finite _ _ _ => true
  | S754_infinity _ | S754_nan => false
  end.

(** The numbers [Math.round] returns: an integral number, written as the
    integer it denotes, a not-a-number or an infinity.  ([Int 0] stands for
    both zeros: [Math.round(-0.2)] is [-0], which no comparison and no
    conversion to a string tells from [0].) *)
Inductive rounded : Type :=
| Int (n : Z)
| NaN
| Infinity (negative : bool).

(** [Math.round x]: the integral number closest to [x], the one towards
    plus infinity when two are equally close.  A finite [x] is
    [±m * 2^e] exactly; for [e < 0] the result is
    [floor (x + 1/2) = floor ((±2m + 2^-e) / 2^(1-e))], computed on
    integers. *)
Definition Math_round (x : float) : rounded :=
  match Prim2SF x with
  | S754_zero _ => Int 0
  | S754_infinity s => Infinity s
  | S754_nan => NaN
  | S754_finite s m e =>
      let sm := if s then Z.neg m else Z.pos m in
      if 0 <=? e then Int (sm * 2 ^ e)
      else Int ((2 * sm + 2 ^ (- e)) / 2 ^ (1 - e))
  end.

(** *** Property access on an object literal *)

(** The names every object inherits from [Object.prototype]. *)
Definition Object_prototype_names : list string :=
  [ "constructor"; "__defineGetter__"; "__defineSetter__"; "hasOwnProperty";
    "__lookupGetter__"; "__lookupSetter__"; "isPrototypeOf";
    "propertyIsEnumerable"; "toString"; "valueOf"; "__proto__";
    "toLocaleString" ].

(** What [obj[key]] evaluates to, for an object literal [obj] whose own
    properties have values of type [A]: an own property, a member of
    [Object.prototype] (a function, or for ["__proto__"] the prototype
    object itself), or [undefined]. *)
Inductive property (A : Type) : Type :=
| Own (a : A)
| Inherited (name : string)
| Undefined.
Arguments Own {A} a.
Arguments Inherited {A} name.
Arguments Undefined {A}.

Definition get {A} (obj : gmap string A) (key : string) : property A :=
  match obj !! key with
  | Some a => Own a
  | None =>
      if bool_decide (key ∈ Object_prototype_names) then Inherited key
      else Undefined
  end.

(** [ToBoolean]: functions and objects are truthy, [undefined] is not. *)
Definition truthy {A} (truthy_own : A → bool) (p : property A) : bool :=
  match p with
  | Own a => truthy_own a
  | Inherited _ => true
  | Undefined => false
  end.

(** [p || d]. *)
Definition or_else {A} (truthy_own : A → bool) (p : property A) (d : A)
  : property A :=
  if truthy truthy_own p then p else Own d.

(** [ToNumber]: a function or a plain object converts to [NaN] (through
    its string form), and so does [undefined]. *)
Definition ToNumber (p : property float) : float :=
  match p with
  | Own x => x
  | Inherited _ | Undefined => PrimFloat.nan
  end.

(** *** Promises *)

(** A settled promise.  The reason of a rejection is the thrown value; the
    program never inspects it, so its message is enough. *)
Inductive settled (A : Type) : Type :=
| Fulfilled (a : A)
| Rejected (reason : string).
Arguments Fulfilled {A} a.
Arguments Rejected {A} reason.

(** [await p; k]: the rest of the [async] body runs on the value of [p],
    and a rejection of [p] is thrown at the [await]. *)
Definition await {A B} (p : settled A) (k : A → settled B) : settled B :=
  match p with
  | Fulfilled a => k a
  | Rejected r => Rejected r
  end.

(** [try { body } catch (error) { handler }]. *)
Definition try_catch {A} (body : settled A) (handler : string → settled A)
  : settled A :=
  match body with
  | Fulfilled a => Fulfilled a
  | Rejected r => handler r
  end.

(** *** More of [String.prototype] *)

(** [String.prototype.toUpperCase] on one code unit of the Latin-1 range.
    a-z and the accented small letters U+00E0-U+00FE except the division
    sign U+00F7 move 32 places down; the sharp s becomes ["SS"]; the
    capitals of the micro sign U+00B5 and of y with diaeresis U+00FF lie
    beyond U+00FF, where this embedding has no character: [None]. *)
Definition upper_char (c : ascii) : option string :=
  let n := code c in
  if ((97 <=? n) && (n <=? 122))%N
  then Some (String (ascii_of_N (n - 32)) EmptyString)
  else if ((224 <=? n) && (n <=? 254) && negb (n =? 247))%N
  then Some (String (ascii_of_N (n - 32)) EmptyString)
  else if (n =? 223)%N then Some "SS"
  else if ((n =? 181) || (n =? 255))%N then None
  else Some (String c EmptyString).

(** [s.split(sep)] for a separator of one character: the pieces between
    the separators, at least one piece. *)
Fixpoint split_on (sep : ascii) (s : string) : list string :=
  match s with
  | EmptyString => [EmptyString]
  | String c s' =>
      if Ascii.eqb c sep then EmptyString :: split_on sep s'
      else match split_on sep s' with
           | w :: ws => String c w :: ws
           | [] => [String c EmptyString]
           end
  end.

(** *** [parseInt] and [parseFloat] *)

(** The Number nearest to [num / den], with the given sign (ties to the
    even mantissa). *)
Definition nearest (negative : bool) (num : Z) (den : positive) : float :=
  match num with
  | Zpos n =>
      SF2Prim (SFdiv prec emax (S754_finite negative n 0)
                 (S754_finite false den 0))
  | _ => if negative then (-0)%float else 0%float
  end.

Definition digit_of (c : ascii) : option Z :=
  let n := code c in
  if ((48 <=? n) && (n <=? 57))%N then Some (Z.of_N (n - 48)) else None.

(** The longest run of decimal digits at the start of [s], read onto
    [value]: the number read, how many digits there were, what follows. *)
Fixpoint digits_from (value : Z) (count : nat) (s : string)
  : Z * nat * string :=
  match s with
  | EmptyString => (value, count, s)
  | String c s' =>
      match digit_of c with
      | Some d => digits_from (10 * value + d) (S count) s'
      | None => (value, count, s)
      end
  end.

(** Leading whitespace is skipped. *)
Fixpoint trim_start (s : string) : string :=
  match s with
  | EmptyString => s
  | String c s' => if is_whitespace c then trim_start s' else s
  end.

(** An optional sign. *)
Definition sign_of (s : string) : bool * string :=
  match s with
  | String c s' =>
      if Ascii.eqb c "-" then (true, s')
      else if Ascii.eqb c "+" then (false, s')
      else (false, s)
  | EmptyString => (false, s)
  end.

(** [parseInt(s, 10)]: the digits that follow the optional sign, up to the
    first character that is no digit; [NaN] when there is none.  (Past
    twenty significant digits an engine may round differently.) *)
Definition parseInt10 (s : string) : float :=
  let '(negative, rest) := sign_of (trim_start s) in
  let '(value, count, _) := digits_from 0 0 rest in
  match count with
  | O => nan
  | S _ => nearest negative value 1
  end.

(** The exponent part [e], [e+] or [e-] with digits; an exponent
    indicator without digits is no part of the number. *)
Definition exponent_of (s : string) : Z :=
  match s with
  | String c s' =>
      if Ascii.eqb c "e" || Ascii.eqb c "E" then
        let '(negative, rest) := sign_of s' in
        let '(value, count, _) := digits_from 0 0 rest in
        match count with
        | O => 0
        | S _ => if negative then - value else value
        end
      else 0
  | EmptyString => 0
  end.

(** [parseFloat(s)]: the longest prefix, after leading whitespace, that is
    a decimal literal: an optional sign, then [Infinity], or digits with an
    optional fraction (or a fraction alone), and an optional exponent;
    [NaN] when there is none.  (Past twenty significant digits an engine
    may round differently.) *)
Definition parseFloat (s : string) : float :=
  let '(negative, rest) := sign_of (trim_start s) in
  if String.prefix "Infinity" rest
  then (if negative then neg_infinity else infinity)
  else
    let '(whole, whole_digits, after_whole) := digits_from 0 0 rest in
    let '(mantissa, fraction_digits, after_fraction) :=
      match after_whole with
      | String c s' =>
          if Ascii.eqb c "." then digits_from whole 0 s'
          else (whole, O, after_whole)
      | EmptyString => (whole, O, after_whole)
      end in
    match whole_digits, fraction_digits with
    | O, O => nan
    | _, _ =>
        let exponent :=
          exponent_of after_fraction - Z.of_nat fraction_digits in
        match exponent with
        | Zneg p => nearest negative mantissa (10 ^ p)
        | _ => nearest negative (mantissa * 10 ^ exponent) 1
        end
    end.


(** [words.join(sep)]. *)
Fixpoint join (sep : string) (words : list string) : string :=
  match words with
  | [] => EmptyString
  | w :: ws =>
      match ws with
      | [] => w
      | _ :: _ => w +:+ sep +:+ join sep ws
      end
  end.

End JS.

Notation "x ←await p ; k" := (JS.await p (fun x => k))
  (at level 20, p at level 100, k at level 200, only parsing).

(** ** [src/lib/nutrition-logic.ts] *)

Module NutritionLogic.
Import JS.

(** Activity level multipliers for TDEE calculation. *)
Definition ACTIVITY_MULTIPLIERS : gmap string float :=
  list_to_map
    [ ("sedentary", 1.2%float);
      ("lightly_active", 1.375%float);
      ("moderately_active", 1.55%float);
      ("very_active", 1.725%float);
      ("super_active", 1.9%float) ].

(** The parameter type ['male' | 'female' | 'other']. *)
Inductive gender : Type := male | female | other.

#[export] Instance gender_eq_dec : EqDecision gender.
Proof. solve_decision. Defined.

Definition calculateBMR (g : gender) (weight_kg height_cm age : float)
  : float :=
  let baseCalc := ((10 * weight_kg) + (6.25 * height_cm) - (5 * age))%float in
  if decide (g = male) then (baseCalc + 5)%float
  else if decide (g = female) then (baseCalc - 161)%float
  else (baseCalc - 78)%float.

Definition calculateTDEE (bmr : float) (activityLevel : string) : rounded :=
  let normalizedLevel := replace_whitespace_runs (toLowerCase activityLevel) in
  let multiplier :=
    or_else truthy_number (get ACTIVITY_MULTIPLIERS normalizedLevel) 1.2%float in
  Math_round (bmr * ToNumber multiplier)%float.

(** A value of the table: [{ calories: number; unit: string }]. *)
Record nutrition : Type := { calories : float; unit : string }.

(** Food-101 nutrition mapping. *)
Definition FOOD_101_NUTRITION_MAP : gmap string nutrition :=
  list_to_map [
    ("apple_pie", {| calories := 237; unit := "slice (100g)" |});
    ("baby_back_ribs", {| calories := 361; unit := "1/2 rack" |});
    ("baklava", {| calories := 334; unit := "piece" |});
    ("beef_carpaccio", {| calories := 140; unit := "serving" |});
    ("beef_tartare", {| calories := 240; unit := "serving" |});
    ("beet_salad", {| calories := 120; unit := "serving" |});
    ("beignets", {| calories := 220; unit := "piece" |});
    ("bibimbap", {| calories := 490; unit := "bowl" |});
    ("bread_pudding", {| calories := 270; unit := "slice" |});
    ("breakfast_burrito", {| calories := 290; unit := "burrito" |});
    ("bruschetta", {| calories := 50; unit := "piece" |});
    ("caesar_salad", {| calories := 180; unit := "serving" |});
    ("cannoli", {| calories := 200; unit := "piece" |});
    ("caprese_salad", {| calories := 220; unit := "serving" |});
    ("carrot_cake", {| calories := 350; unit := "slice" |});
    ("ceviche", {| calories := 140; unit := "cup" |});
    ("cheesecake", {| calories := 321; unit := "slice" |});
    ("cheese_plate", {| calories := 450; unit := "serving" |});
    ("chicken_curry", {| calories := 340; unit := "serving" |});
    ("chicken_quesadilla", {| calories := 520; unit := "quesadilla" |});
    ("chicken_wings", {| calories := 203; unit := "3 wings" |});
    ("chocolate_cake", {| calories := 371; unit := "slice" |});
    ("chocolate_mousse", {| calories := 225; unit := "cup" |});
    ("churros", {| calories := 116; unit := "piece" |});
    ("clam_chowder", {| calories := 250; unit := "cup" |});
    ("club_sandwich", {| calories := 590; unit := "sandwich" |});
    ("crab_cakes", {| calories := 160; unit := "cake" |});
    ("creme_brulee", {| calories := 280; unit := "serving" |});
    ("croque_madame", {| calories := 410; unit := "sandwich" |});
    ("cup_cakes", {| calories := 250; unit := "cupcake" |});
    ("deviled_eggs", {| calories := 60; unit := "half egg" |});
    ("donuts", {| calories := 195; unit := "donut" |});
    ("dumplings", {| calories := 40; unit := "dumpling" |});
    ("edamame", {| calories := 121; unit := "cup" |});
    ("eggs_benedict", {| calories := 600; unit := "serving" |});
    ("escargots", {| calories := 80; unit := "serving" |});
    ("falafel", {| calories := 57; unit := "ball" |});
    ("filet_mignon", {| calories := 320; unit := "steak" |});
    ("fish_and_chips", {| calories := 690; unit := "serving" |});
    ("foie_gras", {| calories := 460; unit := "serving" |});
    ("french_fries", {| calories := 312; unit := "medium" |});
    ("french_onion_soup", {| calories := 290; unit := "bowl" |});
    ("french_toast", {| calories := 229; unit := "slice" |});
    ("fried_calamari", {| calories := 340; unit := "serving" |});
    ("fried_rice", {| calories := 330; unit := "cup" |});
    ("frozen_yogurt", {| calories := 110; unit := "cup" |});
    ("garlic_bread", {| calories := 150; unit := "slice" |});
    ("gnocchi", {| calories := 250; unit := "cup" |});
    ("greek_salad", {| calories := 210; unit := "serving" |});
    ("grilled_cheese_sandwich", {| calories := 390; unit := "sandwich" |});
    ("grilled_salmon", {| calories := 350; unit := "fillet" |});
    ("guacamole", {| calories := 150; unit := "serving" |});
    ("gyoza", {| calories := 50; unit := "piece" |});
    ("hamburger", {| calories := 295; unit := "burger" |});
    ("hot_and_sour_soup", {| calories := 90; unit := "bowl" |});
    ("hot_dog", {| calories := 150; unit := "dog" |});
    ("hummus", {| calories := 170; unit := "3 tbsp" |});
    ("ice_cream", {| calories := 207; unit := "scoop" |});
    ("lasagna", {| calories := 450; unit := "slice" |});
    ("lobster_bisque", {| calories := 300; unit := "cup" |});
    ("lobster_roll_sandwich", {| calories := 420; unit := "roll" |});
    ("macaroni_and_cheese", {| calories := 350; unit := "cup" |});
    ("macarons", {| calories := 70; unit := "cookie" |});
    ("miso_soup", {| calories := 40; unit := "bowl" |});
    ("mussels", {| calories := 175; unit := "serving" |});
    ("nachos", {| calories := 450; unit := "serving" |});
    ("omelette", {| calories := 154; unit := "serving" |});
    ("onion_rings", {| calories := 410; unit := "medium" |});
    ("oysters", {| calories := 50; unit := "6 oysters" |});
    ("pad_thai", {| calories := 350; unit := "cup" |});
    ("paella", {| calories := 350; unit := "cup" |});
    ("pancakes", {| calories := 64; unit := "pancake" |});
    ("panna_cotta", {| calories := 330; unit := "serving" |});
    ("peking_duck", {| calories := 400; unit := "serving" |});
    ("pho", {| calories := 350; unit := "bowl" |});
    ("pizza", {| calories := 266; unit := "slice" |});
    ("pork_chop", {| calories := 290; unit := "chop" |});
    ("poutine", {| calories := 510; unit := "serving" |});
    ("prime_rib", {| calories := 600; unit := "slice" |});
    ("pulled_pork_sandwich", {| calories := 550; unit := "sandwich" |});
    ("ramen", {| calories := 436; unit := "bowl" |});
    ("ravioli", {| calories := 300; unit := "serving" |});
    ("red_velvet_cake", {| calories := 360; unit := "slice" |});
    ("risotto", {| calories := 330; unit := "cup" |});
    ("samosa", {| calories := 150; unit := "piece" |});
    ("sashimi", {| calories := 40; unit := "piece" |});
    ("scallops", {| calories := 110; unit := "serving" |});
    ("seaweed_salad", {| calories := 106; unit := "serving" |});
    ("shrimp_and_grits", {| calories := 450; unit := "serving" |});
    ("spaghetti_bolognese", {| calories := 330; unit := "cup" |});
    ("spaghetti_carbonara", {| calories := 380; unit := "cup" |});
    ("spring_rolls", {| calories := 100; unit := "roll" |});
    ("steak", {| calories := 400; unit := "steak" |});
    ("strawberry_shortcake", {| calories := 250; unit := "slice" |});
    ("sushi", {| calories := 45; unit := "roll" |});
    ("tacos", {| calories := 170; unit := "taco" |});
    ("takoyaki", {| calories := 40; unit := "ball" |});
    ("tiramisu", {| calories := 360; unit := "slice" |});
    ("tuna_tartare", {| calories := 160; unit := "serving" |});
    ("waffles", {| calories := 82; unit := "waffle" |}) ].

Definition getNutritionInfo (foodLabel : string) : property nutrition :=
  let normalized := replace_whitespace_runs (toLowerCase foodLabel) in
  or_else (fun _ => true) (get FOOD_101_NUTRITION_MAP normalized)
    {| calories := 250; unit := "serving (est)" |}.

(** [word.charAt(0).toUpperCase() + word.slice(1)]. *)
Definition capitalize (word : string) : option string :=
  match word with
  | EmptyString => Some EmptyString
  | String c rest => (λ first, first +:+ rest) <$> upper_char c
  end.

(** Formats a food label for display (e.g., 'pizza' to 'Pizza'). *)
Definition formatFoodLabel (label : string) : option string :=
  join " " <$> mapM capitalize (split_on "_" (toLowerCase label)).

End NutritionLogic.

(** ** The API client ([APIClient]) *)

Module ApiClient.
Import JS.

(** A response payload as axios hands it over in [result.data]: the parsed
    JSON value, or the raw text ([JString]) of a body that is not JSON.
    The type parameter of [post<T>] is erased at run time: nothing checks
    that the payload has the shape [T]. *)
Inductive json : Type :=
| JNull
| JBool (b : bool)
| JNumber (x : float)
| JString (s : string)
| JArray (items : list json)
| JObject (fields : list (string * json)).

(** One part of a [FormData]. *)
Inductive form_value : Type :=
| FormString (s : string)
| FormBlob (blob : string) (filename : string)
| FormFile (uri name type : string).

Inductive body : Type :=
| JsonBody (payload : json)
| FormBody (parts : list (string * form_value)).

Record response : Type := { status : Z; data : json }.

(** What happens to one HTTP request. *)
Inductive exchange : Type :=
| Timeout
| NetworkError
| Answer (r : response).

(** How an axios instance settles the promise of [post].  (axios is a
    dependency of the repository; the two instances are created with a
    base URL and a timeout only, so its defaults apply.)  It rejects on a
    timeout, on a transport error and on a status outside 200-299, and
    fulfils with the response otherwise, whatever the payload is. *)
Definition axios_settle (x : exchange) : settled response :=
  match x with
  | Timeout => Rejected "timeout exceeded"
  | NetworkError => Rejected "Network Error"
  | Answer r =>
      if (200 <=? status r) && (status r <? 300) then Fulfilled r
      else Rejected ("Request failed with status code " +:+ pretty (status r))
  end.

(** The failures of a request: a timeout, a transport error, a status
    outside 200-299. *)
Definition request_fails (x : exchange) : bool :=
  match x with
  | Timeout | NetworkError => true
  | Answer r => negb ((200 <=? status r) && (status r <? 300))
  end.

(** The user's goal, ['lose' | 'maintain' | 'gain']. *)
Inductive goal : Type := lose | maintain | gain.

Definition goal_string (g : goal) : string :=
  match g with lose => "lose" | maintain => "maintain" | gain => "gain" end.

(** [imageUri.split('/').pop()]: what follows the last slash. *)
Fixpoint last_segment_from (acc : string) (s : string) : string :=
  match s with
  | EmptyString => acc
  | String c s' =>
      if Ascii.eqb c "/" then last_segment_from EmptyString s'
      else last_segment_from (acc +:+ String c EmptyString) s'
  end.

Definition last_segment (s : string) : string :=
  last_segment_from EmptyString s.

(** The class [\w]: letters, digits and the underscore. *)
Definition is_word_char (c : ascii) : bool :=
  let n := code c in
  (((48 <=? n) && (n <=? 57)) || ((65 <=? n) && (n <=? 90)) || (n =? 95)
   || ((97 <=? n) && (n <=? 122)))%N.

Fixpoint all_word_chars (s : string) : bool :=
  match s with
  | EmptyString => true
  | String c s' => is_word_char c && all_word_chars s'
  end.

(** [/\.(\w+)$/.exec(filename)]: the first dot that is followed by word
    characters only, at least one, up to the end; the group is what
    follows the dot. *)
Fixpoint extension (filename : string) : option string :=
  match filename with
  | EmptyString => None
  | String c s' =>
      if Ascii.eqb c "." && negb (String.eqb s' EmptyString)
         && all_word_chars s'
      then Some s'
      else extension s'
  end.

Section Client.

(** The world around the client: the platform, what [fetch(uri)] followed
    by [.blob()] gives, and what happens to a request sent through each
    of the two axios instances. *)
Variable Platform_OS : string.
Variable fetch_blob : string → settled string.
Variable modelApi : string → body → exchange.
Variable geminiApi : string → body → exchange.

Definition post (api : string → body → exchange) (url : string) (b : body)
  : settled response :=
  axios_settle (api url b).

(** The [FormData] that [predictFood] builds before it sends anything.  On
    the web the image is fetched first, and that can fail. *)
Definition image_form (imageUri : string) (isBase64 : bool)
  : settled (list (string * form_value)) :=
  if isBase64 then Fulfilled [("image_base64", FormString imageUri)]
  else
    let filename :=
      let last := last_segment imageUri in
      if String.eqb last EmptyString then "food.jpg" else last in
    let type :=
      match extension filename with
      | Some ext => "image/" +:+ ext
      | None => "image/jpeg"
      end in
    if String.eqb Platform_OS "web" then
      blob ←await fetch_blob imageUri;
      Fulfilled [("image", FormBlob blob filename)]
    else
      Fulfilled [("image", FormFile imageUri filename type)].

(** Send image to Keras model for food classification.  (The console
    output and the request options, a content type and an identity
    [transformRequest], are left out.) *)
Definition predictFood (imageUri : string) (isBase64 : bool)
  : settled json :=
  try_catch
    (formData ←await image_form imageUri isBase64;
     result ←await post modelApi "/predict" (FormBody formData);
     Fulfilled (data result))
    (fun error => Rejected "Failed to predict food. Please try again.").

(** The classification call fails when the image cannot be fetched or the
    request to [/predict] fails. *)
Definition classification_fails (imageUri : string) (isBase64 : bool) : bool :=
  match image_form imageUri isBase64 with
  | Rejected _ => true
  | Fulfilled formData => request_fails (modelApi "/predict" (FormBody formData))
  end.

(** The tip returned when the coaching request fails. *)
Definition fallback_tip (detectedFoodLabel : string) : json :=
  JObject
    [("coaching_tip",
      JString ("You've logged " +:+ detectedFoodLabel
                 +:+ ". Keep tracking your meals!"))].

(** The body of the coaching request. *)
Definition coaching_request (userTdee caloriesConsumed : float)
    (detectedFoodLabel : string) (detectedFoodCalories : float)
    (userGoal : goal) : body :=
  JsonBody (JObject
    [ ("user_tdee", JNumber userTdee);
      ("calories_consumed_so_far", JNumber caloriesConsumed);
      ("detected_food_label", JString detectedFoodLabel);
      ("detected_food_calories", JNumber detectedFoodCalories);
      ("user_goal", JString (goal_string userGoal)) ]).

(** Get personalized coaching tip from Gemini.  [userGoal] is optional
    and defaults to ['maintain'].  (The console output is left out.) *)
Definition getCoachingTip (userTdee caloriesConsumed : float)
    (detectedFoodLabel : string) (detectedFoodCalories : float)
    (userGoal : option goal) : settled json :=
  let userGoal := default maintain userGoal in
  try_catch
    (result ←await post geminiApi "/coaching"
       (coaching_request userTdee caloriesConsumed detectedFoodLabel
          detectedFoodCalories userGoal);
     Fulfilled (data result))
    (fun error => Fulfilled (fallback_tip detectedFoodLabel)).

End Client.

(** [payload.name], for a payload that is an object with that field. *)
Definition field (name : string) (payload : json) : option json :=
  match payload with
  | JObject fields => snd <$> (snd <$> list_find (λ kv, kv.1 = name) fields)
  | _ => None
  end.

(** A payload of the shape [CoachingTipResponse]: an object with a string
    [coaching_tip]. *)
Definition is_coaching_payload (payload : json) : bool :=
  match field "coaching_tip" payload with
  | Some (JString _) => true
  | _ => false
  end.

(** A payload of the shape [FoodPredictionResponse]: an object with a
    string [label] and a number [confidence]. *)
Definition is_prediction_payload (payload : json) : bool :=
  match field "label" payload, field "confidence" payload with
  | Some (JString _), Some (JNumber _) => true
  | _, _ => false
  end.

Section Health.

(** What happens to a [GET] sent through each of the two axios
    instances. *)
Variable modelApi_get : string → exchange.
Variable geminiApi_get : string → exchange.

(** Health check for model API. *)
Definition checkModelHealth : settled bool :=
  try_catch
    (_ ←await axios_settle (modelApi_get "/health");
     Fulfilled true)
    (fun _ => Fulfilled false).

(** Health check for Gemini API. *)
Definition checkGeminiHealth : settled bool :=
  try_catch
    (_ ←await axios_settle (geminiApi_get "/health");
     Fulfilled true)
    (fun _ => Fulfilled false).

End Health.

End ApiClient.

(** ** The nutrition context ([NutritionProvider]) *)

Module NutritionContext.
Import JS.

Record UserProfile : Type := {
  weight_kg : float;
  height_cm : float;
  age : float;
  gender : NutritionLogic.gender;
  activity_level : string;
  bmr : float;
  tdee : float;
  goal : ApiClient.goal
}.

Record MealLogEntry : Type := {
  id : string;
  date : string;        (* YYYY-MM-DD *)
  time : string;        (* HH:MM *)
  food_label : string;
  calories : float;
  quantity : float;
  unit : string
}.

(** [DailySummary].  Its fields [date] and [meals] are written
    [summary_date] and [summary_meals] here, to tell them from the field
    of an entry and from the state variable of the same names. *)
Record DailySummary : Type := {
  summary_date : string;
  total_calories : float;
  total_protein : rounded;
  total_carbs : rounded;
  total_fats : rounded;
  summary_meals : list MealLogEntry
}.

Definition PROFILE_STORAGE_KEY : string := "@nutrivision_profile".
Definition MEALS_STORAGE_KEY : string := "@nutrivision_meals".

(** What [AsyncStorage] holds under a key: the [JSON.stringify] image of a
    profile or of the meal collection, written as the value it encodes. *)
Inductive stored : Type :=
| StoredProfile (p : UserProfile)
| StoredMeals (l : list MealLogEntry).

(** The state of the provider: the two React state variables that hold
    data, and the durable store behind them.  (The [isLoading] flag and the
    initial load are left out.) *)
Record state : Type := {
  profile : option UserProfile;
  meals : list MealLogEntry;
  storage : gmap string stored
}.

(** How one [AsyncStorage.setItem] ends. *)
Inductive write : Type :=
| WriteOk
| WriteFails (reason : string).

(** An [async] function of the provider: it runs on the state of the
    render it was created in, may change the state, and settles. *)
Definition effect (A : Type) : Type := state → state * settled A.

Definition then_ {A B} (e : effect A) (k : A → effect B) : effect B :=
  λ st,
    match e st with
    | (st', Fulfilled a) => k a st'
    | (st', Rejected r) => (st', Rejected r)
    end.

Definition throw {A} (error : string) : effect A :=
  λ st, (st, Rejected error).

(** [try { body } catch (error) { handler }]: what [body] did to the state
    before it threw is kept. *)
Definition try_catch_effect {A} (body : effect A) (handler : string → effect A)
  : effect A :=
  λ st,
    match body st with
    | (st', Fulfilled a) => (st', Fulfilled a)
    | (st', Rejected r) => handler r st'
    end.

Definition setProfileState (p : UserProfile) : effect Datatypes.unit :=
  λ st,
    ({| profile := Some p; meals := meals st; storage := storage st |},
     Fulfilled tt).

Definition setMealsState (l : list MealLogEntry) : effect Datatypes.unit :=
  λ st,
    ({| profile := profile st; meals := l; storage := storage st |},
     Fulfilled tt).

Definition AsyncStorage_setItem (w : write) (key : string) (value : stored)
  : effect Datatypes.unit :=
  λ st,
    match w with
    | WriteOk =>
        ({| profile := profile st; meals := meals st;
            storage := <[key := value]> (storage st) |},
         Fulfilled tt)
    | WriteFails reason => (st, Rejected reason)
    end.

End NutritionContext.

Notation "e1 ;; e2" := (NutritionContext.then_ e1 (fun _ => e2))
  (at level 100, e2 at level 200, right associativity, only parsing).

Module NutritionProvider.
Import JS NutritionContext.

Definition setProfile (w : write) (newProfile : UserProfile)
  : effect Datatypes.unit :=
  try_catch_effect
    (setProfileState newProfile ;;
     AsyncStorage_setItem w PROFILE_STORAGE_KEY (StoredProfile newProfile))
    (fun error => throw error).

(** [{ ...meal, id }]: the argument of [addMeal] has the type
    [Omit<MealLogEntry, 'id'>]; it is an entry whose [id] is not read. *)
Definition with_id (meal : MealLogEntry) (new_id : string) : MealLogEntry :=
  {| id := new_id; date := date meal; time := time meal;
     food_label := food_label meal; calories := calories meal;
     quantity := quantity meal; unit := unit meal |}.

(** [now] is the reading of [Date.now()], in milliseconds; its
    [toString()] is the decimal numeral. *)
Definition addMeal (now : Z) (w : write) (meal : MealLogEntry)
  : effect Datatypes.unit :=
  fun st =>
    try_catch_effect
      (let newMeal := with_id meal (pretty now) in
       let updatedMeals := (meals st ++ [newMeal])%list in
       setMealsState updatedMeals ;;
       AsyncStorage_setItem w MEALS_STORAGE_KEY (StoredMeals updatedMeals))
      (fun error => throw error)
      st.

Definition removeMeal (w : write) (mealId : string) : effect Datatypes.unit :=
  fun st =>
    try_catch_effect
      (let updatedMeals := filter (λ meal, id meal ≠ mealId) (meals st) in
       setMealsState updatedMeals ;;
       AsyncStorage_setItem w MEALS_STORAGE_KEY (StoredMeals updatedMeals))
      (fun error => throw error)
      st.

(** [today] is [new Date().toISOString().split('T')[0]], the calendar date
    of the clock reading. *)
Definition getTodaysMeals (today : string) (st : state) : list MealLogEntry :=
  filter (λ meal, date meal = today) (meals st).

(** [getTodaysSummary] reads the clock itself ([today]) and then calls
    [getTodaysMeals], which reads it again ([today']). *)
Definition getTodaysSummary (today today' : string) (st : state)
  : DailySummary :=
  let todaysMeals := getTodaysMeals today' st in
  let totalCalories :=
    fold_left (λ sum meal, (sum + calories meal)%float) todaysMeals 0%float in
  let totalProtein := Math_round (totalCalories * 0.3 / 4)%float in
  let totalCarbs := Math_round (totalCalories * 0.45 / 4)%float in
  let totalFats := Math_round (totalCalories * 0.25 / 9)%float in
  {| summary_date := today;
     total_calories := totalCalories;
     total_protein := totalProtein;
     total_carbs := totalCarbs;
     total_fats := totalFats;
     summary_meals := todaysMeals |}.

(** A session: appends and removals, each with what the clock and the
    durable store did.  Every operation is the one of the render that
    follows the previous operation: it runs on the state that operation
    left. *)
Inductive action : Type :=
| AddMeal (now : Z) (w : write) (meal : MealLogEntry)
| RemoveMeal (w : write) (mealId : string).

Definition perform (st : state) (a : action) : state :=
  match a with
  | AddMeal now w meal => (addMeal now w meal st).1
  | RemoveMeal w mealId => (removeMeal w mealId st).1
  end.

Definition run (actions : list action) (st : state) : state :=
  fold_left perform actions st.

(** The clock readings of the appends of a session. *)
Definition readings (actions : list action) : list Z :=
  omap (λ a, match a with AddMeal now _ _ => Some now | _ => None end) actions.

(** The state of a fresh installation. *)
Definition initial : state :=
  {| profile := None; meals := []; storage := ∅ |}.

End NutritionProvider.

(** ** The start of the provider ([loadData]) *)

Module Startup.
Import JS NutritionContext.

(** What [AsyncStorage.getItem] gives for a key: a rejection; [null] when
    the key is absent (or the empty string, which is falsy alike); a text
    that [JSON.parse] rejects; or the JSON text of a value.  The parsed
    value is not checked against the declared type; a text that encodes a
    value of another shape has no counterpart in the typed state and is
    left out here. *)
Inductive item (A : Type) : Type :=
| ItemFails (reason : string)
| ItemAbsent
| ItemMalformed
| ItemValue (a : A).
Arguments ItemFails {A} reason.
Arguments ItemAbsent {A}.
Arguments ItemMalformed {A}.
Arguments ItemValue {A} a.

(** The provider with its loading flag. *)
Record provider : Type := { current : state; isLoading : bool }.

(** The provider as [useState] creates it, over a durable store. *)
Definition mounted (disk : gmap string stored) : provider :=
  {| current := {| profile := None; meals := []; storage := disk |};
     isLoading := true |}.

Definition skip : effect Datatypes.unit := λ st, (st, Fulfilled tt).

(** [await Promise.all([getItem(..), getItem(..)])]: a rejection of either
    read is thrown. *)
Definition Promise_all {A B} (a : item A) (b : item B) : effect Datatypes.unit :=
  match a, b with
  | ItemFails reason, _ => throw reason
  | _, ItemFails reason => throw reason
  | _, _ => skip
  end.

(** [if (data) { set(JSON.parse(data)) }]. *)
Definition parse_into {A} (data : item A) (set : A → effect Datatypes.unit)
  : effect Datatypes.unit :=
  match data with
  | ItemValue a => set a
  | ItemMalformed => throw "SyntaxError: JSON Parse error"
  | ItemAbsent | ItemFails _ => skip
  end.

(** Load profile and meals from AsyncStorage on mount.  The [catch] only
    logs; the [finally] clears the loading flag. *)
Definition loadData (profileData : item UserProfile)
    (mealsData : item (list MealLogEntry)) (p : provider) : provider :=
  let body :=
    try_catch_effect
      (Promise_all profileData mealsData ;;
       parse_into profileData setProfileState ;;
       parse_into mealsData setMealsState)
      (fun error => skip) in
  {| current := (body (current p)).1; isLoading := false |}.







(** Numbers that [JSON] writes and reads back unchanged. *)
Definition JSON_safe (x : float) : bool :=
  is_finite x && negb (PrimFloat.Leibniz.eqb x (-0)%float).


Definition JSON_safe_profile (p : UserProfile) : bool :=
  JSON_safe (weight_kg p) && JSON_safe (height_cm p) && JSON_safe (age p)
  && JSON_safe (bmr p) && JSON_safe (tdee p).

End Startup.

(** ** The scan screen ([app/(tabs)/scan.tsx]) *)

Module ScanScreen.
Import JS ApiClient NutritionLogic NutritionContext NutritionProvider.

(** [ToBoolean] of a parsed JSON value. *)
Definition json_truthy (j : json) : bool :=
  match j with
  | JNull => false
  | JBool b => b
  | JNumber x => truthy_number x
  | JString s => negb (String.eqb s EmptyString)
  | JArray _ | JObject _ => true
  end.

(** [ToBoolean] of [value.name], where [None] is [undefined]. *)
Definition member_truthy (name : string) (value : json) : bool :=
  match field name value with
  | Some v => json_truthy v
  | None => false
  end.

Inductive ScanState : Type := ready | camera | preview | analyzing | result.

(** The alerts of the screen, by what they say; the values put into the
    text of an alert are its arguments. *)
Inductive alert : Type :=
| NoImageSelected         (* 'Error', 'No image selected.' *)
| RecognitionFailed       (* 'Failed to recognize food. Please try another image.' *)
| AnalysisFailed          (* 'Failed to analyze image. Please check your connection.' *)
| MealLogged (display : option string) (totalCalories : float)
| LogMealFailed.          (* 'Failed to log meal. Please try again.' *)

(** The state variables of the screen, and the alerts shown so far.  The
    prediction is the payload as received: its declared shape is not
    checked. *)
Record screen : Type := {
  scanState : ScanState;
  selectedImage : option string;
  prediction : option json;
  quantity : float;
  isLoading : bool;
  alerts : list alert
}.

Definition show (a : alert) (s : screen) : screen :=
  {| scanState := scanState s; selectedImage := selectedImage s;
     prediction := prediction s; quantity := quantity s;
     isLoading := isLoading s; alerts := (alerts s ++ [a])%list |}.

(** The screen when an analysis is over: the [finally] has cleared the
    loading flag. *)
Definition analysed (next : ScanState) (p : option json) (s : screen) : screen :=
  {| scanState := next; selectedImage := selectedImage s;
     prediction := p; quantity := quantity s;
     isLoading := false; alerts := alerts s |}.

Section Handlers.

Variable Platform_OS : string.
Variable fetch_blob : string → settled string.
Variable modelApi : string → body → exchange.

Definition handleAnalyzeFood (s : screen) : screen :=
  match selectedImage s with
  | None => show NoImageSelected s
  | Some image =>
      if String.eqb image EmptyString then show NoImageSelected s
      else
        match predictFood Platform_OS fetch_blob modelApi image false with
        | Fulfilled payload =>
            if json_truthy payload && member_truthy "label" payload
            then analysed result (Some payload) s
            else show RecognitionFailed (analysed preview (prediction s) s)
        | Rejected _ =>
            show AnalysisFailed (analysed preview (prediction s) s)
        end
  end.

(** The meal that [handleLogMeal] hands to [addMeal].  A label that is not
    a string has no [toLowerCase]: [getNutritionInfo] throws.  When
    [getNutritionInfo] returns a member of [Object.prototype], the meal
    gets [undefined] for a unit, which an entry cannot hold here: that
    case is left out ([None]). *)
Definition meal_of (label : string) (count : float) (day clock : string)
  : option MealLogEntry :=
  match getNutritionInfo label with
  | Own nutritionInfo =>
      let totalCalories := (NutritionLogic.calories nutritionInfo * count)%float in
      Some {| NutritionContext.id := EmptyString;
              NutritionContext.date := day;
              NutritionContext.time := clock;
              NutritionContext.food_label := label;
              NutritionContext.calories := totalCalories;
              NutritionContext.quantity := count;
              NutritionContext.unit := NutritionLogic.unit nutritionInfo |}
  | Inherited _ | Undefined => None
  end.

(** [day] and [clock] are the date and the time that [new Date()] gives
    in the handler, [now] is the reading of [addMeal], [w] is what happens
    to its write. *)
Definition handleLogMeal (day clock : string) (now : Z) (w : write)
    (s : screen) (st : state) : option (screen * state) :=
  match prediction s with
  | None => Some (s, st)
  | Some payload =>
      match field "label" payload with
      | Some (JString label) =>
          meal ← meal_of label (quantity s) day clock;
          match addMeal now w meal st with
          | (st', Fulfilled _) =>
              Some (show (MealLogged (formatFoodLabel label)
                            (NutritionContext.calories meal)) s,
                    st')
          | (st', Rejected _) => Some (show LogMealFailed s, st')
          end
      | _ => Some (show LogMealFailed s, st)
      end
  end.

End Handlers.

End ScanScreen.

(** ** The dashboard ([app/(tabs)/index.tsx]) *)

Module Dashboard.
Import JS ApiClient NutritionContext NutritionProvider.

(** The coaching tip shown: the state variable is declared
    [string | null], and holds whatever [response.coaching_tip] was. *)
Inductive tip : Type :=
| TipNull
| TipUndefined
| TipValue (v : json).

Record dashboard : Type := { coachingTip : tip; loadingCoaching : bool }.

Section Coach.

Variable geminiApi : string → body → exchange.

(** [summary_day] and [meals_day] are the dates that [getTodaysSummary]
    and [getTodaysMeals] read from the clock when the screen is
    rendered. *)
Definition fetchCoachingTip (summary_day meals_day : string) (st : state)
    (d : dashboard) : dashboard :=
  let todaysSummary := getTodaysSummary summary_day summary_day st in
  let todaysMeals := getTodaysMeals meals_day st in
  match profile st, last todaysMeals with
  | Some profile, Some lastMeal =>
      let caloriesBeforeLast :=
        (total_calories todaysSummary - calories lastMeal)%float in
      let shown :=
        match getCoachingTip geminiApi (tdee profile) caloriesBeforeLast
                (food_label lastMeal) (calories lastMeal) (Some (goal profile))
        with
        | Fulfilled JNull => TipValue (JString "Keep tracking your meals!")
        | Fulfilled response =>
            match field "coaching_tip" response with
            | Some v => TipValue v
            | None => TipUndefined
            end
        | Rejected _ => TipValue (JString "Keep tracking your meals!")
        end in
      {| coachingTip := shown; loadingCoaching := false |}
  | _, _ => {| coachingTip := TipNull; loadingCoaching := loadingCoaching d |}
  end.

End Coach.

End Dashboard.

(** ** [src/app/(tabs)/profile.tsx] *)

Module ProfileScreen.
Import JS.

(** The alerts of the screen, by what they say.  (The alert of the
    [catch] in [handleCalculateTDEE] is never shown: nothing in its [try]
    throws.) *)
Inductive alert : Type :=
| MissingInformation      (* 'Please fill in all fields.' *)
| EnterPositiveNumbers    (* 'Please enter positive numbers.' *)
| CheckYourEntries        (* 'Please check your entries.' *)
| CalculateFirst          (* 'Please calculate TDEE first.' *)
| ProfileSaved (target : float)
| SaveFailed.             (* 'Failed to save profile. Please try again.' *)

(** The state variables of the screen, and the alerts shown so far.  The
    three text fields hold what was typed.  (How the fields are filled
    from a stored profile when the screen is created is left out.) *)
Record form : Type := {
  weight : string;
  height : string;
  age : string;
  gender : NutritionLogic.gender;
  activityLevel : string;
  goal : ApiClient.goal;
  tdeeResult : option float;
  calculating : bool;
  alerts : list alert
}.

Definition show (a : alert) (f : form) : form :=
  {| weight := weight f; height := height f; age := age f;
     gender := gender f; activityLevel := activityLevel f; goal := goal f;
     tdeeResult := tdeeResult f; calculating := calculating f;
     alerts := (alerts f ++ [a])%list |}.



Definition validateInputs (f : form) : form * bool :=
  if String.eqb (weight f) EmptyString
     || String.eqb (height f) EmptyString
     || String.eqb (age f) EmptyString
  then (show MissingInformation f, false)
  else
    let w := parseFloat (weight f) in
    let h := parseFloat (height f) in
    let a := parseInt10 (age f) in
    if (w <=? 0)%float || (h <=? 0)%float || (a <=? 0)%float
    then (show EnterPositiveNumbers f, false)
    else if (300 <? w)%float || (250 <? h)%float || (150 <? a)%float
    then (show CheckYourEntries f, false)
    else (f, true).

(** [bmr] of the handlers: [calculateBMR] at what the fields parse to. *)
Definition bmr_of (f : form) : float :=
  NutritionLogic.calculateBMR (gender f) (parseFloat (weight f))
    (parseFloat (height f)) (parseInt10 (age f)).


Definition newProfile (f : form) (tdee : float)
  : NutritionContext.UserProfile :=
  {| NutritionContext.weight_kg := parseFloat (weight f);
     NutritionContext.height_cm := parseFloat (height f);
     NutritionContext.age := parseInt10 (age f);
     NutritionContext.gender := gender f;
     NutritionContext.activity_level := activityLevel f;
     NutritionContext.bmr := bmr_of f;
     NutritionContext.tdee := tdee;
     NutritionContext.goal := goal f |}.


End ProfileScreen.

(** ** Sample inputs *)

Module Samples.
Import JS ApiClient NutritionContext NutritionProvider.

(** A server that treats every request alike. *)
Definition always (x : exchange) : string → body → exchange := λ _ _, x.

Definition answer (code : Z) (payload : json) : exchange :=
  Answer {| status := code; data := payload |}.

(** A [fetch] that delivers an empty image. *)
Definition fetch_ok : string → settled string := λ _, Fulfilled "".

Definition fetch_fails : string → settled string :=
  λ _, Rejected "Failed to fetch".

(** A meal to log, not yet given an id. *)
Definition sample_meal (label : string) (kcal : float) (day : string)
  : MealLogEntry :=
  {| id := ""; date := day; time := "12:30"; food_label := label;
     calories := kcal; quantity := 1; unit := "serving" |}.

(** A ledger with one entry, logged at reading 1714560000000. *)
Definition one_pizza : state :=
  run [ AddMeal 1714560000000 WriteOk (sample_meal "pizza" 266 "2024-05-01") ]
    initial.

(** Two appends that read the same clock value: within one millisecond, or
    after the wall clock was set back. *)
Definition same_reading : list action :=
  [ AddMeal 1714560000000 WriteOk (sample_meal "pizza" 266 "2024-05-01");
    AddMeal 1714560000000 WriteOk (sample_meal "ramen" 436 "2024-05-01") ].

(** The write of an operation. *)
Definition write_of (a : action) : write :=
  match a with AddMeal _ w _ | RemoveMeal w _ => w end.

(** A session whose appends read three different clock values. *)
Definition session : list action :=
  [ AddMeal 1714560000000 WriteOk (sample_meal "pizza" 266 "2024-05-01");
    AddMeal 1714560000001 (WriteFails "disk full")
      (sample_meal "ramen" 436 "2024-05-01");
    RemoveMeal WriteOk "1714560000000";
    AddMeal 1714563600000 WriteOk (sample_meal "hamburger" 295 "2024-05-01") ].

(** The scenario of the specification: 1200 kcal logged, then a hamburger
    of 295 kcal, and a meal of another day in between. *)
Definition scenario : state :=
  run [ AddMeal 1714560000000 WriteOk (sample_meal "pizza" 1200 "2024-05-01");
        AddMeal 1714560000001 WriteOk (sample_meal "ramen" 436 "2024-04-30");
        AddMeal 1714563600000 WriteOk
          (sample_meal "hamburger" 295 "2024-05-01") ]
    initial.

(** A profile with a daily target of 2500 kcal. *)
Definition sample_profile : UserProfile :=
  {| weight_kg := 80; height_cm := 180; age := 25;
     gender := NutritionLogic.male; activity_level := "moderately_active";
     bmr := 1805; tdee := 2500; goal := maintain |}.

(** The scenario, with that profile. *)
Definition scenario_with_profile : state :=
  {| profile := Some sample_profile; meals := meals scenario;
     storage := storage scenario |}.

(** The payload of a prediction. *)
Definition predicted (label : string) : json :=
  JObject [("label", JString label); ("confidence", JNumber 0.93)].

(** The scan screen with a photo chosen, before the analysis. *)
Definition photo_chosen : ScanScreen.screen :=
  {| ScanScreen.scanState := ScanScreen.preview;
     ScanScreen.selectedImage := Some "file:///cache/photo.jpg";
     ScanScreen.prediction := None;
     ScanScreen.quantity := 1;
     ScanScreen.isLoading := false;
     ScanScreen.alerts := [] |}.

(** The scan screen showing a prediction, with a quantity chosen. *)
Definition showing (label : string) (count : float) : ScanScreen.screen :=
  {| ScanScreen.scanState := ScanScreen.result;
     ScanScreen.selectedImage := Some "file:///cache/photo.jpg";
     ScanScreen.prediction := Some (predicted label);
     ScanScreen.quantity := count;
     ScanScreen.isLoading := false;
     ScanScreen.alerts := [] |}.

(** The dashboard before any tip was asked for. *)
Definition no_tip : Dashboard.dashboard :=
  {| Dashboard.coachingTip := Dashboard.TipNull;
     Dashboard.loadingCoaching := false |}.


End Samples.

(** ** Shapes of inputs *)

Module Shapes.
Import JS.

(** A label as the classifier gives them: ASCII characters, none of them
    whitespace, and no two underscores in a row.  [after_underscore] tells
    that the previous character was an underscore. *)
Fixpoint plain_from (after_underscore : bool) (s : string) : bool :=
  match s with
  | EmptyString => true
  | String c s' =>
      (code c <? 128)%N && negb (is_whitespace c)
      && (if Ascii.eqb c "_" then negb after_underscore && plain_from true s'
          else plain_from false s')
  end.

Definition plain_label (s : string) : bool := plain_from false s.

Fixpoint all_ascii (s : string) : bool :=
  match s with
  | EmptyString => true
  | String c s' => (code c <? 128)%N && all_ascii s'
  end.

(** The capital of an ASCII small letter; any other character is left
    alone. *)
Definition capital_of (c : ascii) : ascii :=
  if ((97 <=? code c) && (code c <=? 122))%N then ascii_of_N (code c - 32)
  else c.

(** [s] with every underscore turned into a space. *)
Fixpoint underscores_to_spaces (s : string) : string :=
  match s with
  | EmptyString => EmptyString
  | String c s' =>
      String (if Ascii.eqb c "_" then " "%char else c) (underscores_to_spaces s')
  end.

Fixpoint contains (c : ascii) (s : string) : bool :=
  match s with
  | EmptyString => false
  | String c' s' => Ascii.eqb c' c || contains c s'
  end.

(** The entry that [handleLogMeal] leaves in the ledger for a label with
    the nutrition fact [fact]. *)
Definition logged_entry (label : string) (fact : NutritionLogic.nutrition)
    (count : float) (day clock : string) (now : Z)
  : NutritionContext.MealLogEntry :=
  {| NutritionContext.id := pretty now;
     NutritionContext.date := day;
     NutritionContext.time := clock;
     NutritionContext.food_label := label;
     NutritionContext.calories := (NutritionLogic.calories fact * count)%float;
     NutritionContext.quantity := count;
     NutritionContext.unit := NutritionLogic.unit fact |}.

(** The request that [fetchCoachingTip] sends for a profile and a last
    meal: the calories before the last meal are the day's total less the
    calories of that meal. *)
Definition request_for (summary_day : string) (st : NutritionContext.state)
    (p : NutritionContext.UserProfile)
    (lastMeal : NutritionContext.MealLogEntry) : ApiClient.body :=
  ApiClient.coaching_request (NutritionContext.tdee p)
    (NutritionContext.total_calories
       (NutritionProvider.getTodaysSummary summary_day summary_day st)
     - NutritionContext.calories lastMeal)%float
    (NutritionContext.food_label lastMeal) (NutritionContext.calories lastMeal)
    (NutritionContext.goal p).

(** A number that the range check of the profile form lets through, for
    the upper bound [hi]: one in [(0, hi]], or a not-a-number. *)
Definition passes (hi x : float) : bool :=
  is_NaN x || ((0 <? x)%float && (x <=? hi)%float).

End Shapes.

(** ** What the specification says, in its own words *)

Module Spec.
Import JS.

(** Two characters that are the same letter up to case: equal, or an
    ASCII capital and its small letter. *)
Definition is_capital (c : ascii) : bool :=
  ((65 <=? code c) && (code c <=? 90))%N.

Definition same_letter (a b : ascii) : bool :=
  Ascii.eqb a b
  || (is_capital a && (code b =? code a + 32)%N)
  || (is_capital b && (code a =? code b + 32)%N).

Fixpoint has_capital (s : string) : bool :=
  match s with
  | EmptyString => false
  | String c s' => is_capital c || has_capital s'
  end.

(** Two labels that differ only in letter case. *)
Fixpoint differ_in_case_only (s t : string) : bool :=
  match s, t with
  | EmptyString, EmptyString => true
  | String a s', String b t' => same_letter a b && differ_in_case_only s' t'
  | _, _ => false
  end.

(** Normalization of a label or of an activity level: lower-casing, then
    whitespace to underscore. *)
Definition normalize (s : string) : string :=
  replace_whitespace_runs (toLowerCase s).

(** The fixed five-entry table of activity multipliers. *)
Definition multiplier_table : list (string * float) :=
  [ ("sedentary", 1.2%float); ("lightly_active", 1.375%float);
    ("moderately_active", 1.55%float); ("very_active", 1.725%float);
    ("super_active", 1.9%float) ].

(** The multiplier of a normalized level: its entry in the table, and the
    sedentary multiplier for a level the table does not name. *)
Definition multiplier_of (level : string) : float :=
  match list_find (λ kv, kv.1 = level) multiplier_table with
  | Some (_, (_, m)) => m
  | None => 1.2%float
  end.

(** [computeTDEE] as the specification words it. *)
Definition computeTDEE (bmr : float) (activity_level : string) : rounded :=
  Math_round (bmr * multiplier_of (normalize activity_level))%float.

(** The fallback fact of the nutrition table. *)
Definition fallback_fact : NutritionLogic.nutrition :=
  {| NutritionLogic.calories := 250; NutritionLogic.unit := "serving (est)" |}.

End Spec.

(** ** Sample evaluations of the JavaScript primitives *)

Example Math_round_samples :
  JS.Math_round 2.5 = JS.Int 3 ∧ JS.Math_round (-2.5) = JS.Int (-2) ∧
  JS.Math_round 0.49999999999999994 = JS.Int 0 ∧
  JS.Math_round 2159.9999999999995 = JS.Int 2160 ∧
  JS.Math_round (-0.2) = JS.Int 0 ∧ JS.Math_round 0.5 = JS.Int 1.
Proof. vm_compute. repeat split. Qed.

Example replace_whitespace_runs_samples :
  JS.replace_whitespace_runs "lightly active" = "lightly_active" ∧
  JS.replace_whitespace_runs "a  b c " = "a_b_c_".
Proof. split; reflexivity. Qed.


(** ** Properties of [nutrition-logic.ts] *)

(** Splits a conjunction of closed facts and leaves each to evaluation. *)
Ltac by_evaluation := split_and?; vm_compute; reflexivity.

Module NutritionLogicFacts.
Import JS NutritionLogic Spec.

(** *** Characters and normalization *)

Lemma capital_lower (a b : ascii) :
  is_capital a = true → code b = (code a + 32)%N → lower_char a = lower_char b.
Proof.
  intros Ha Hb.
  assert (b = ascii_of_N (code a + 32)) as ->
    by (rewrite <- Hb; symmetry; apply ascii_N_embedding).
  revert Ha. destruct a as [[] [] [] [] [] [] [] []];
    vm_compute; intros Ha; first [reflexivity | discriminate Ha].
Qed.

Lemma same_letter_lower (a b : ascii) :
  same_letter a b = true → lower_char a = lower_char b.
Proof.
  unfold same_letter.
  intros [[Heq | [Ha Hb]%andb_prop]%orb_prop | [Hb Ha]%andb_prop]%orb_prop.
  - apply Ascii.eqb_eq in Heq. by subst.
  - apply capital_lower; [done | by apply N.eqb_eq].
  - symmetry. apply capital_lower; [done | by apply N.eqb_eq].
Qed.

Lemma differ_in_case_only_toLowerCase (s t : string) :
  differ_in_case_only s t = true → toLowerCase s = toLowerCase t.
Proof.
  revert t. induction s as [|a s IH]; intros [|b t]; simpl; try done.
  intros [Hab Hst]%andb_prop. f_equal; [by apply same_letter_lower | by apply IH].
Qed.

Lemma normalize_case_variant (s t : string) :
  differ_in_case_only s t = true → normalize s = normalize t.
Proof.
  intros H. unfold normalize. by rewrite (differ_in_case_only_toLowerCase s t H).
Qed.

(** A lower-cased character is no ASCII capital, and normalization keeps
    it so: no normalized string contains one. *)
Lemma lower_char_not_capital (c : ascii) : is_capital (lower_char c) = false.
Proof. destruct c as [[] [] [] [] [] [] [] []]; reflexivity. Qed.

Lemma toLowerCase_no_capital (s : string) : has_capital (toLowerCase s) = false.
Proof.
  induction s as [|c s IH]; simpl; [done|].
  by rewrite lower_char_not_capital, IH.
Qed.

Lemma replace_ws_from_no_capital (s : string) (in_run : bool) :
  has_capital s = false → has_capital (replace_ws_from in_run s) = false.
Proof.
  revert in_run. induction s as [|c s IH]; intros in_run; simpl; [done|].
  intros [Hc Hs]%orb_false_elim.
  destruct (is_whitespace c), in_run; simpl; rewrite ?Hc; simpl; by apply IH.
Qed.

Lemma normalize_no_capital (s : string) : has_capital (normalize s) = false.
Proof. apply replace_ws_from_no_capital, toLowerCase_no_capital. Qed.

(** X4.  Of the names inherited from [Object.prototype], the normalization
    of a label or of an activity level can only produce the two that are
    written without a capital: ['constructor'] and ['__proto__']. *)
Lemma normalize_inherited (s : string) :
  normalize s ∈ Object_prototype_names →
  normalize s = "constructor" ∨ normalize s = "__proto__".
Proof.
  intros Hin. pose proof (normalize_no_capital s) as Hcap.
  unfold Object_prototype_names in Hin.
  repeat (apply elem_of_cons in Hin as [Heq | Hin];
          [ first [ by left | by right
                  | rewrite Heq in Hcap; vm_compute in Hcap; discriminate Hcap ]
          | ]).
  by apply elem_of_nil in Hin.
Qed.

Lemma normalize_inherited_witness :
  normalize "Constructor" ∈ Object_prototype_names
  ∧ (normalize "Constructor" = "constructor"
     ∨ normalize "Constructor" = "__proto__").
Proof.
  assert (normalize "Constructor" ∈ Object_prototype_names) as Hin.
  { apply (bool_decide_unpack _). vm_compute. exact I. }
  split; [exact Hin | exact (normalize_inherited "Constructor" Hin)].
Defined.

(** *** [calculateBMR] *)

(** C5.  For every gender and all weights, heights and ages, [calculateBMR]
    returns [base + 5] for male, [base - 161] for female and [base - 78]
    otherwise, where [base = 10 * weight_kg + 6.25 * height_cm - 5 * age],
    in the arithmetic of JavaScript numbers and without a rounding step;
    and [calculateBMR('male', 80, 180, 25)] is [1805],
    [calculateBMR('female', 65, 165, 30)] is [1370.25],
    [calculateBMR('other', 75, 175, 28)] is [1625.75], exactly. *)
Theorem calculateBMR_formula :
  (∀ (g : gender) (weight_kg height_cm age : float),
     calculateBMR g weight_kg height_cm age =
       let base := (10 * weight_kg + 6.25 * height_cm - 5 * age)%float in
       match g with
       | male => (base + 5)%float
       | female => (base - 161)%float
       | other => (base - 78)%float
       end)
  ∧ calculateBMR male 80 180 25 = 1805%float
  ∧ calculateBMR female 65 165 30 = 1370.25%float
  ∧ calculateBMR other 75 175 28 = 1625.75%float.
Proof.
  split; [intros [] w h a; reflexivity | by_evaluation].
Qed.

(** *** [calculateTDEE] *)

Lemma Math_round_integer (x : float) :
  is_finite x = true → ∃ n : Z, Math_round x = Int n.
Proof.
  unfold is_finite, Math_round.
  destruct (Prim2SF x) as [sg| sg | |sg m e]; try done; [by eexists|].
  intros _. destruct (0 <=? e); by eexists.
Qed.

(** The own properties of [ACTIVITY_MULTIPLIERS] are the five entries of
    the specification's table, and every multiplier is truthy. *)
Lemma ACTIVITY_MULTIPLIERS_lookup (level : string) :
  ACTIVITY_MULTIPLIERS !! level =
    (λ kv, kv.2.2) <$> list_find (λ kv, kv.1 = level) multiplier_table.
Proof.
  unfold ACTIVITY_MULTIPLIERS, multiplier_table.
  destruct (decide (level = "sedentary")) as [-> | ?];
    [vm_compute; reflexivity|].
  destruct (decide (level = "lightly_active")) as [-> | ?];
    [vm_compute; reflexivity|].
  destruct (decide (level = "moderately_active")) as [-> | ?];
    [vm_compute; reflexivity|].
  destruct (decide (level = "very_active")) as [-> | ?];
    [vm_compute; reflexivity|].
  destruct (decide (level = "super_active")) as [-> | ?];
    [vm_compute; reflexivity|].
  rewrite !list_to_map_cons, list_to_map_nil. simpl fst. simpl snd.
  rewrite !lookup_insert_ne by done. rewrite lookup_empty.
  cbn [list_find].
  repeat (rewrite decide_False by (simpl; congruence); simpl).
  done.
Qed.

Lemma multiplier_table_truthy (level : string) (m : float) :
  ACTIVITY_MULTIPLIERS !! level = Some m → truthy_number m = true.
Proof.
  unfold ACTIVITY_MULTIPLIERS.
  rewrite !list_to_map_cons, list_to_map_nil. simpl fst. simpl snd.
  repeat (rewrite lookup_insert; case_decide;
          [intros [= <-]; vm_compute; reflexivity|]).
  by rewrite lookup_empty.
Qed.

(** X1.  For every [bmr] and every level whose normalization is not a name
    inherited from [Object.prototype], [calculateTDEE] is the [computeTDEE]
    of the specification: the level is lower-cased, its whitespace runs
    become underscores, the multiplier is the one the five-entry table
    gives, or 1.2 for a level the table does not name, and the result is
    [Math.round(bmr * multiplier)]. *)
Lemma calculateTDEE_computeTDEE (bmr : float) (activityLevel : string) :
  normalize activityLevel ∉ Object_prototype_names →
  calculateTDEE bmr activityLevel = computeTDEE bmr activityLevel.
Proof.
  intros Hproto. unfold calculateTDEE, computeTDEE, multiplier_of.
  fold (normalize activityLevel). set (level := normalize activityLevel) in *.
  f_equal. f_equal. unfold get, or_else.
  pose proof (ACTIVITY_MULTIPLIERS_lookup level) as Htable.
  pose proof (multiplier_table_truthy level) as Htruthy.
  set (found := list_find _ multiplier_table) in *. clearbody found.
  destruct (ACTIVITY_MULTIPLIERS !! level) as [m|].
  - simpl. rewrite (Htruthy m eq_refl). simpl.
    destruct found as [[i [k m']]|]; simpl in Htable; congruence.
  - rewrite bool_decide_eq_false_2 by done. simpl.
    destruct found as [[i [k m']]|]; simpl in Htable; congruence.
Qed.

Lemma calculateTDEE_computeTDEE_witness :
  (normalize "Lightly  Active" ∉ Object_prototype_names)
  ∧ calculateTDEE 1800 "Lightly  Active" = computeTDEE 1800 "Lightly  Active".
Proof.
  assert (normalize "Lightly  Active" ∉ Object_prototype_names) as Hout.
  { apply (bool_decide_unpack _). vm_compute. exact I. }
  split; [exact Hout |].
  exact (calculateTDEE_computeTDEE 1800 "Lightly  Active" Hout).
Defined.

(** X7.  On such a level, and when [bmr * multiplier] is finite, the result
    of [calculateTDEE] is an integer. *)
Lemma calculateTDEE_integer (bmr : float) (activityLevel : string) :
  normalize activityLevel ∉ Object_prototype_names →
  is_finite (bmr * multiplier_of (normalize activityLevel)) = true →
  ∃ n : Z, calculateTDEE bmr activityLevel = Int n.
Proof.
  intros Hproto Hfin. rewrite calculateTDEE_computeTDEE by done.
  by apply Math_round_integer.
Qed.

Lemma calculateTDEE_integer_witness :
  (normalize "very_active" ∉ Object_prototype_names)
  ∧ is_finite (1805 * multiplier_of (normalize "very_active")) = true
  ∧ ∃ n : Z, calculateTDEE 1805 "very_active" = Int n.
Proof.
  assert (normalize "very_active" ∉ Object_prototype_names) as Hout.
  { apply (bool_decide_unpack _). vm_compute. exact I. }
  assert (is_finite (1805 * multiplier_of (normalize "very_active")) = true)
    as Hfin by (vm_compute; reflexivity).
  split_and?; [exact Hout | exact Hfin |].
  exact (calculateTDEE_integer 1805 "very_active" Hout Hfin).
Defined.

Lemma calculateTDEE_samples :
  calculateTDEE 1800 "sedentary" = Int 2160 ∧
  calculateTDEE 1800 "lightly active" = calculateTDEE 1800 "lightly_active" ∧
  calculateTDEE 1800 "unknown_level" = Int 2160 ∧
  calculateTDEE 1805 "moderately_active" = Int 2798.
Proof. by_evaluation. Qed.

(** C6.  [calculateTDEE] is meant to use the sedentary multiplier for every
    level that names none of the five entries, so that
    [calculateTDEE(1800, s)] is 2160 for every such [s], as the
    specification's [computeTDEE] has it.  The level ['constructor'] names
    none of the five entries, yet [ACTIVITY_MULTIPLIERS['constructor']] is
    the function inherited from [Object.prototype]: it is truthy, the
    default is not taken, and the result is [NaN]. *)
Theorem calculateTDEE_constructor_NaN :
  normalize "constructor" = "constructor"
  ∧ ACTIVITY_MULTIPLIERS !! "constructor" = None
  ∧ computeTDEE 1800 "constructor" = Int 2160
  ∧ calculateTDEE 1800 "constructor" = NaN.
Proof. by_evaluation. Qed.

(** *** [getNutritionInfo] *)

(** C1.  For every variant of the label 'pizza' that differs from it only
    in letter case ('PIZZA', 'Pizza', 'pizza', ...), [getNutritionInfo]
    returns the same fact, [{calories: 266, unit: 'slice'}]. *)
Theorem getNutritionInfo_pizza_any_case (s : string) :
  differ_in_case_only s "pizza" = true →
  getNutritionInfo s = Own {| calories := 266; unit := "slice" |}.
Proof.
  intros H. unfold getNutritionInfo. fold (normalize s).
  rewrite (normalize_case_variant s "pizza" H). vm_compute. reflexivity.
Qed.

Lemma getNutritionInfo_pizza_any_case_witness :
  differ_in_case_only "PiZZa" "pizza" = true ∧
  getNutritionInfo "PiZZa" = Own {| calories := 266; unit := "slice" |}.
Proof.
  split; [vm_compute; reflexivity |].
  apply (getNutritionInfo_pizza_any_case "PiZZa"). vm_compute. reflexivity.
Defined.

(** The unit of the pizza entry is ['slice'], not ['slice (100g)'], and a
    trailing space is not dropped: ['pizza '] normalizes to ['pizza_'],
    which the table does not have. *)
Lemma getNutritionInfo_pizza_unit_and_space :
  getNutritionInfo "pizza" = Own {| calories := 266; unit := "slice" |}
  ∧ getNutritionInfo "pizza" ≠ Own {| calories := 266; unit := "slice (100g)" |}
  ∧ normalize "pizza " = "pizza_"
  ∧ getNutritionInfo "pizza " = Own fallback_fact
  ∧ getNutritionInfo "pizza " ≠ Own {| calories := 266; unit := "slice (100g)" |}.
Proof.
  split_and?; vm_compute; first [reflexivity | intros H; discriminate H].
Qed.

(** X2.  A label whose normalization is neither a key of the table nor a
    name inherited from [Object.prototype] resolves to the fallback fact
    [{calories: 250, unit: 'serving (est)'}]. *)
Lemma getNutritionInfo_miss (foodLabel : string) :
  FOOD_101_NUTRITION_MAP !! normalize foodLabel = None →
  normalize foodLabel ∉ Object_prototype_names →
  getNutritionInfo foodLabel = Own fallback_fact.
Proof.
  intros Hmiss Hproto. unfold getNutritionInfo, get, or_else.
  fold (normalize foodLabel). rewrite Hmiss.
  by rewrite bool_decide_eq_false_2.
Qed.

Lemma getNutritionInfo_miss_witness :
  FOOD_101_NUTRITION_MAP !! normalize "unknown_xyz" = None
  ∧ (normalize "unknown_xyz" ∉ Object_prototype_names)
  ∧ getNutritionInfo "unknown_xyz" = Own fallback_fact.
Proof.
  assert (FOOD_101_NUTRITION_MAP !! normalize "unknown_xyz" = None) as Hmiss
    by (vm_compute; reflexivity).
  assert (normalize "unknown_xyz" ∉ Object_prototype_names) as Hout.
  { apply (bool_decide_unpack _). vm_compute. exact I. }
  split_and?; [exact Hmiss | exact Hout |].
  exact (getNutritionInfo_miss "unknown_xyz" Hmiss Hout).
Defined.

Lemma getNutritionInfo_inherited (foodLabel : string) :
  FOOD_101_NUTRITION_MAP !! normalize foodLabel = None →
  normalize foodLabel ∈ Object_prototype_names →
  getNutritionInfo foodLabel = Inherited (normalize foodLabel).
Proof.
  intros Hmiss Hproto. unfold getNutritionInfo, get, or_else.
  fold (normalize foodLabel). rewrite Hmiss.
  by rewrite bool_decide_eq_true_2.
Qed.

Lemma getNutritionInfo_unknown_xyz :
  getNutritionInfo "unknown_xyz" = Own fallback_fact.
Proof. vm_compute. reflexivity. Qed.

(** C9.  A label whose normalization is not a key of the table is meant to
    resolve to the fallback fact [{calories: 250, unit: 'serving (est)'}].
    The label ['constructor'] is no key of the table, yet
    [FOOD_101_NUTRITION_MAP['constructor']] is the function inherited from
    [Object.prototype]: it is truthy, and [getNutritionInfo] returns it in
    place of the fallback fact. *)
Theorem getNutritionInfo_constructor_inherited :
  normalize "constructor" = "constructor"
  ∧ FOOD_101_NUTRITION_MAP !! "constructor" = None
  ∧ getNutritionInfo "constructor" = Inherited "constructor"
  ∧ getNutritionInfo "constructor" ≠ Own fallback_fact.
Proof.
  split_and?; vm_compute; first [reflexivity | intros H; discriminate H].
Qed.

End NutritionLogicFacts.

(** ** Properties of the API client *)

Module ApiClientFacts.
Import JS ApiClient Samples.

Lemma axios_settle_fails (x : exchange) :
  request_fails x = true → ∃ reason, axios_settle x = Rejected reason.
Proof.
  destruct x as [| |r]; simpl; [by eexists | by eexists |].
  destruct ((200 <=? status r) && (status r <? 300)); [done | by eexists].
Qed.

Lemma axios_settle_answers (x : exchange) :
  request_fails x = false →
  ∃ r, x = Answer r ∧ axios_settle x = Fulfilled r.
Proof.
  destruct x as [| |r]; simpl; [done | done |].
  destruct ((200 <=? status r) && (status r <? 300)); [by eexists | done].
Qed.

Section Coaching.

Variable geminiApi : string → body → exchange.
Variables (userTdee caloriesConsumed detectedFoodCalories : float).
Variable detectedFoodLabel : string.
Variable userGoal : option goal.

Let request : body :=
  coaching_request userTdee caloriesConsumed detectedFoodLabel
    detectedFoodCalories (default maintain userGoal).

Let tip : settled json :=
  getCoachingTip geminiApi userTdee caloriesConsumed detectedFoodLabel
    detectedFoodCalories userGoal.

(** X3.  [getCoachingTip] never throws: whatever happens to the request,
    the promise it returns is fulfilled. *)
Lemma getCoachingTip_never_rejects : ∃ payload, tip = Fulfilled payload.
Proof.
  unfold tip, getCoachingTip, post, try_catch, await.
  destruct (axios_settle _); by eexists.
Qed.

(** An answer with a status in 200-299 is passed on as it is. *)
Lemma getCoachingTip_passes_answer_on (r : response) :
  geminiApi "/coaching" request = Answer r →
  request_fails (Answer r) = false →
  tip = Fulfilled (data r).
Proof.
  intros Hx Hok. unfold tip, getCoachingTip, post. fold request. rewrite Hx.
  destruct (axios_settle_answers _ Hok) as (r' & [= <-] & ->). done.
Qed.

(** C2.  For every request and every failure of the coaching call that
    axios reports (a timeout, a transport error, a status outside 200-299),
    [getCoachingTip] does not throw: it resolves with the fallback tip
    "You've logged {label}. Keep tracking your meals!", which contains the
    food label. *)
Theorem getCoachingTip_fallback_on_failure :
  request_fails (geminiApi "/coaching" request) = true →
  tip = Fulfilled
          (JObject [("coaching_tip",
                     JString ("You've logged " +:+ detectedFoodLabel +:+
                              ". Keep tracking your meals!"))]).
Proof.
  intros Hfail. unfold tip, getCoachingTip, post. fold request.
  destruct (axios_settle_fails _ Hfail) as [reason ->]. done.
Qed.

End Coaching.

Lemma getCoachingTip_fallback_on_failure_witness :
  request_fails
    (always Timeout "/coaching"
       (coaching_request 2500 1200 "hamburger" 295 maintain)) = true
  ∧ getCoachingTip (always Timeout) 2500 1200 "hamburger" 295 None =
      Fulfilled
        (JObject [("coaching_tip",
           JString "You've logged hamburger. Keep tracking your meals!")]).
Proof.
  split; [reflexivity |].
  apply (getCoachingTip_fallback_on_failure (always Timeout)
           2500 1200 295 "hamburger" None).
  reflexivity.
Defined.

(** A payload that is not a coaching tip, answered with status 200, is not
    a failure for axios: [getCoachingTip] resolves with it, not with the
    fallback tip. *)
Lemma getCoachingTip_malformed_payload_passed_on :
  is_coaching_payload (JObject [("error", JString "quota")]) = false
  ∧ request_fails (answer 200 (JObject [("error", JString "quota")])) = false
  ∧ getCoachingTip
      (always (answer 200 (JObject [("error", JString "quota")])))
      2500 1200 "hamburger" 295 None =
      Fulfilled (JObject [("error", JString "quota")])
  ∧ getCoachingTip
      (always (answer 200 (JObject [("error", JString "quota")])))
      2500 1200 "hamburger" 295 None ≠
      Fulfilled (fallback_tip "hamburger").
Proof.
  split_and?; vm_compute; first [reflexivity | intros H; discriminate H].
Qed.

Section Prediction.

Variable Platform_OS : string.
Variable fetch_blob : string → settled string.
Variable modelApi : string → body → exchange.
Variable imageUri : string.
Variable isBase64 : bool.

Let prediction : settled json :=
  predictFood Platform_OS fetch_blob modelApi imageUri isBase64.

(** C8.  For every image input, when the classification call fails (the
    image cannot be fetched, the service is unreachable or times out, or it
    answers with a status outside 200-299), [predictFood] throws the error
    'Failed to predict food. Please try again.' to its caller: it does not
    resolve, and it substitutes no label. *)
Theorem predictFood_throws_on_failure :
  classification_fails Platform_OS fetch_blob modelApi imageUri isBase64 = true →
  prediction = Rejected "Failed to predict food. Please try again.".
Proof.
  unfold classification_fails, prediction, predictFood, post.
  destruct (image_form _ _ _ _) as [formData | reason]; simpl; [|done].
  intros Hfail. by destruct (axios_settle_fails _ Hfail) as [reason ->].
Qed.

(** X5.  When the call does not fail, [predictFood] resolves with the
    payload of the answer as it is: no label of its own is ever returned. *)
Lemma predictFood_passes_answer_on :
  classification_fails Platform_OS fetch_blob modelApi imageUri isBase64 = false →
  ∃ formData r,
    image_form Platform_OS fetch_blob imageUri isBase64 = Fulfilled formData
    ∧ modelApi "/predict" (FormBody formData) = Answer r
    ∧ prediction = Fulfilled (data r).
Proof.
  unfold classification_fails, prediction, predictFood, post.
  destruct (image_form _ _ _ _) as [formData | reason]; simpl; [|done].
  intros Hok. destruct (axios_settle_answers _ Hok) as (r & Hx & Hr).
  exists formData, r. by rewrite Hr.
Qed.

End Prediction.

Lemma predictFood_throws_on_failure_witness :
  classification_fails "android" fetch_ok (always NetworkError)
    "file:///cache/photo.jpg" false = true
  ∧ predictFood "android" fetch_ok (always NetworkError)
      "file:///cache/photo.jpg" false
    = Rejected "Failed to predict food. Please try again.".
Proof.
  split; [reflexivity |].
  apply (predictFood_throws_on_failure "android" fetch_ok
           (always NetworkError) "file:///cache/photo.jpg" false).
  reflexivity.
Defined.

Lemma predictFood_passes_answer_on_witness :
  classification_fails "ios" fetch_ok
    (always (answer 200
       (JObject [("label", JString "pizza"); ("confidence", JNumber 0.93)])))
    "file:///cache/photo.jpg" false = false
  ∧ ∃ formData r,
      image_form "ios" fetch_ok "file:///cache/photo.jpg" false
        = Fulfilled formData
      ∧ always (answer 200
          (JObject [("label", JString "pizza"); ("confidence", JNumber 0.93)]))
          "/predict" (FormBody formData) = Answer r
      ∧ predictFood "ios" fetch_ok
          (always (answer 200
             (JObject [("label", JString "pizza");
                       ("confidence", JNumber 0.93)])))
          "file:///cache/photo.jpg" false = Fulfilled (data r).
Proof.
  split; [reflexivity |].
  apply (predictFood_passes_answer_on "ios" fetch_ok
           (always (answer 200
              (JObject [("label", JString "pizza");
                        ("confidence", JNumber 0.93)])))
           "file:///cache/photo.jpg" false).
  reflexivity.
Defined.

Lemma image_form_samples :
  image_form "android" fetch_ok "file:///cache/photo.jpg" false
    = Fulfilled [("image",
                  FormFile "file:///cache/photo.jpg" "photo.jpg" "image/jpg")]
  ∧ image_form "ios" fetch_ok "file:///cache/" false
    = Fulfilled [("image", FormFile "file:///cache/" "food.jpg" "image/jpg")]
  ∧ image_form "ios" fetch_ok "content://media/1234" false
    = Fulfilled [("image", FormFile "content://media/1234" "1234" "image/jpeg")]
  ∧ image_form "web" fetch_fails "blob:1234" false
    = Rejected "Failed to fetch"
  ∧ image_form "web" fetch_fails "aGVsbG8=" true
    = Fulfilled [("image_base64", FormString "aGVsbG8=")].
Proof. by_evaluation. Qed.

(** A payload without a label, answered with status 200, is not a failure
    for axios: [predictFood] resolves with it. *)
Lemma predictFood_malformed_payload_resolves :
  is_prediction_payload (JObject []) = false
  ∧ classification_fails "android" fetch_ok (always (answer 200 (JObject [])))
      "file:///cache/photo.jpg" false = false
  ∧ predictFood "android" fetch_ok (always (answer 200 (JObject [])))
      "file:///cache/photo.jpg" false
    = Fulfilled (JObject []).
Proof. by_evaluation. Qed.

End ApiClientFacts.

(** ** Properties of the nutrition context *)

Module NutritionProviderFacts.
Import JS NutritionContext NutritionProvider Samples.
Local Open Scope list_scope.

(** *** What the operations do to the collection *)

Lemma addMeal_meals (st : state) (now : Z) (w : write) (meal : MealLogEntry) :
  meals (addMeal now w meal st).1 = meals st ++ [with_id meal (pretty now)].
Proof. by destruct w. Qed.

Lemma removeMeal_meals (st : state) (w : write) (mealId : string) :
  meals (removeMeal w mealId st).1 =
    filter (λ meal, id meal ≠ mealId) (meals st).
Proof. by destruct w. Qed.

Lemma removeMeal_absent (l : list MealLogEntry) (mealId : string) :
  mealId ∉ id <$> l → filter (λ meal, id meal ≠ mealId) l = l.
Proof.
  induction l as [|m l IH]; [done|]. rewrite fmap_cons, not_elem_of_cons.
  intros [Hm Hl]. rewrite filter_cons_True by done. by rewrite IH.
Qed.

Lemma removeMeal_ids_sublist (l : list MealLogEntry) (mealId : string) :
  id <$> filter (λ meal, id meal ≠ mealId) l `sublist_of` id <$> l.
Proof. apply fmap_sublist, sublist_filter. Qed.

(** *** C10: a failed write does not undo the mutation *)

(** C10.  Mutations update the in-memory state before persisting: when the
    write to the durable store fails, [addMeal] throws the error of the
    store to its caller, and the in-memory collection holds the appended
    entry all the same; likewise [setProfile] throws, and the in-memory
    profile is the new one.  The durable store is as it was. *)
Theorem failed_write_keeps_mutation (st : state) (now : Z)
    (meal : MealLogEntry) (newProfile : UserProfile) (reason : string) :
  addMeal now (WriteFails reason) meal st =
    ({| profile := profile st;
        meals := meals st ++ [with_id meal (pretty now)];
        storage := storage st |},
     Rejected reason)
  ∧ setProfile (WriteFails reason) newProfile st =
    ({| profile := Some newProfile;
        meals := meals st;
        storage := storage st |},
     Rejected reason).
Proof. split; reflexivity. Qed.

(** X8.  When the write succeeds, [addMeal] and [setProfile] resolve, and
    the durable store holds what the memory holds. *)
Lemma successful_write_persists (st : state) (now : Z) (meal : MealLogEntry)
    (newProfile : UserProfile) :
  let st1 := (addMeal now WriteOk meal st).1 in
  let st2 := (setProfile WriteOk newProfile st).1 in
  (addMeal now WriteOk meal st).2 = Fulfilled tt
  ∧ storage st1 !! MEALS_STORAGE_KEY = Some (StoredMeals (meals st1))
  ∧ (setProfile WriteOk newProfile st).2 = Fulfilled tt
  ∧ storage st2 !! PROFILE_STORAGE_KEY = Some (StoredProfile newProfile)
  ∧ profile st2 = Some newProfile.
Proof.
  intros st1 st2. split_and?; try done.
  - subst st1. unfold addMeal, try_catch_effect, then_; simpl.
    by rewrite lookup_insert_eq.
  - subst st2. unfold setProfile, try_catch_effect, then_; simpl.
    by rewrite lookup_insert_eq.
Qed.

(** *** C7: the daily summary *)


(** C7.  For every state and date, the summary's [total_calories] is the
    sum, from the first entry to the last, of the calories of the entries
    of that date; [total_protein] is [round(total_calories * 0.3 / 4)],
    [total_carbs] is [round(total_calories * 0.45 / 4)], [total_fats] is
    [round(total_calories * 0.25 / 9)]; and [meals] is the entries of that
    date in insertion order.  (The date is the one [getTodaysMeals] reads
    from the clock; the [date] field is the reading of [getTodaysSummary]
    itself.) *)
Theorem getTodaysSummary_fields (st : state) (today today' : string) :
  let summary := getTodaysSummary today today' st in
  let entries := filter (λ meal, date meal = today') (meals st) in
  let total := fold_left PrimFloat.add (calories <$> entries) 0%float in
  summary_meals summary = entries
  ∧ total_calories summary = total
  ∧ total_protein summary = Math_round (total * 0.3 / 4)
  ∧ total_carbs summary = Math_round (total * 0.45 / 4)
  ∧ total_fats summary = Math_round (total * 0.25 / 9)
  ∧ summary_date summary = today.
Proof.
  intros summary entries total.
  assert (total_calories summary = total) as Htotal.
  { subst summary total entries. unfold getTodaysSummary, getTodaysMeals.
    cbn [total_calories]. generalize 0%float.
    induction (filter _ (meals st)) as [|m l IH]; intros acc; [done|].
    simpl. apply IH. }
  split_and?; try done; subst summary; unfold getTodaysSummary;
    cbn [total_protein total_carbs total_fats]; by rewrite <- Htotal.
Qed.

(** X6.  The scenario of the specification: with 1200 kcal logged today, a
    hamburger of 295 kcal brings [total_calories] to 1495. *)
Lemma getTodaysSummary_scenario :
  total_calories (getTodaysSummary "2024-05-01" "2024-05-01" scenario)
    = 1495%float
  ∧ total_protein (getTodaysSummary "2024-05-01" "2024-05-01" scenario)
    = Int 112
  ∧ total_carbs (getTodaysSummary "2024-05-01" "2024-05-01" scenario)
    = Int 168
  ∧ total_fats (getTodaysSummary "2024-05-01" "2024-05-01" scenario)
    = Int 42
  ∧ food_label <$>
      summary_meals (getTodaysSummary "2024-05-01" "2024-05-01" scenario)
    = ["pizza"; "hamburger"].
Proof. by_evaluation. Qed.

(** *** C3: the ids of the entries *)

Lemma perform_ids_fresh (st : state) (a : action) (i : string) :
  i ∉ id <$> meals st →
  match a with AddMeal now _ _ => i ≠ pretty now | RemoveMeal _ _ => True end →
  i ∉ id <$> meals (perform st a).
Proof.
  intros Hi Ha. destruct a as [now w meal | w mealId]; simpl.
  - rewrite addMeal_meals, fmap_app, not_elem_of_app. split; [done|].
    simpl. by rewrite list_elem_of_singleton.
  - rewrite removeMeal_meals. intros Hin. apply Hi.
    eapply elem_of_sublist; [exact Hin|]. apply removeMeal_ids_sublist.
Qed.

Lemma perform_ids_distinct (st : state) (a : action) :
  NoDup (id <$> meals st) →
  match a with
  | AddMeal now _ _ => pretty now ∉ id <$> meals st
  | RemoveMeal _ _ => True
  end →
  NoDup (id <$> meals (perform st a)).
Proof.
  intros Hnd Ha. destruct a as [now w meal | w mealId]; simpl.
  - rewrite addMeal_meals, fmap_app. apply NoDup_app. split_and?; [done| |].
    + intros i Hi. simpl. rewrite list_elem_of_singleton. by intros ->.
    + apply NoDup_singleton.
  - rewrite removeMeal_meals.
    eapply sublist_NoDup; [exact Hnd | apply removeMeal_ids_sublist].
Qed.

(** C3.  The id that [addMeal] generates is the decimal numeral of the
    clock reading [Date.now()].  For every state whose ids are pairwise
    distinct and every sequence of appends and removals in which no two
    appends read the same clock value, and none reads a value whose numeral
    is already an id, all entry ids are pairwise distinct afterwards. *)
Theorem ids_distinct_when_readings_distinct (actions : list action) (st : state) :
  NoDup (id <$> meals st) →
  NoDup (readings actions) →
  (∀ now, now ∈ readings actions → pretty now ∉ id <$> meals st) →
  NoDup (id <$> meals (run actions st)).
Proof.
  revert st. induction actions as [|a actions IH]; intros st Hnd Hr Hfresh;
    [done|].
  unfold run. simpl. apply IH.
  - apply perform_ids_distinct; [done|].
    destruct a as [now w meal | w mealId]; [|done].
    apply Hfresh. simpl. apply list_elem_of_here.
  - destruct a; simpl in Hr; [by apply NoDup_cons in Hr as [_ ?] | done].
  - intros now' Hnow'. apply perform_ids_fresh.
    + apply Hfresh. destruct a; simpl; [by apply list_elem_of_further | done].
    + destruct a as [now w meal | w mealId]; [|done].
      simpl in Hr. apply NoDup_cons in Hr as [Hnotin _].
      intros Heq%(inj pretty). by subst.
Qed.

Lemma ids_distinct_when_readings_distinct_witness :
  NoDup (readings session)
  ∧ id <$> meals (run session initial) = ["1714560000001"; "1714563600000"]
  ∧ NoDup (id <$> meals (run session initial)).
Proof.
  assert (NoDup (readings session)) as Hreadings.
  { apply (bool_decide_unpack _). vm_compute. exact I. }
  split_and?; [exact Hreadings | vm_compute; reflexivity |].
  apply (ids_distinct_when_readings_distinct session initial).
  - apply NoDup_nil_2.
  - exact Hreadings.
  - intros now _. simpl. apply not_elem_of_nil.
Defined.

(** Two appends that read the same clock value get the same id. *)
Lemma addMeal_same_reading_same_id :
  id <$> meals (run same_reading initial)
    = ["1714560000000"; "1714560000000"]
  ∧ ¬ NoDup (id <$> meals (run same_reading initial)).
Proof.
  assert (id <$> meals (run same_reading initial)
          = ["1714560000000"; "1714560000000"]) as Hids
    by (vm_compute; reflexivity).
  split; [done|]. rewrite Hids. intros [Hnotin _]%NoDup_cons.
  apply Hnotin, list_elem_of_here.
Qed.

(** *** C4: append, then remove *)

(** C4.  For every state, every entry and every date: when no entry that
    the ledger holds has the id that the append generates (the numeral of
    its clock reading), [addMeal] followed by [removeMeal] of that id
    leaves the view of every date, and the whole collection, as it was
    before the append. *)
Theorem addMeal_removeMeal_round_trip (st : state) (now : Z) (w w' : write)
    (meal : MealLogEntry) (today : string) :
  pretty now ∉ id <$> meals st →
  let st1 := (addMeal now w meal st).1 in
  let st2 := (removeMeal w' (pretty now) st1).1 in
  getTodaysMeals today st2 = getTodaysMeals today st
  ∧ meals st2 = meals st.
Proof.
  intros Hfresh st1 st2.
  assert (meals st2 = meals st) as Hmeals.
  { subst st1 st2. rewrite removeMeal_meals, addMeal_meals, filter_app.
    rewrite removeMeal_absent by done.
    rewrite filter_cons_False, filter_nil, app_nil_r; [done|].
    simpl. by intros H. }
  split; [|done]. unfold getTodaysMeals. by rewrite Hmeals.
Qed.

Lemma addMeal_removeMeal_round_trip_witness :
  (pretty 1714563600000 ∉ id <$> meals one_pizza)
  ∧ getTodaysMeals "2024-05-01"
      (removeMeal WriteOk "1714563600000"
         (addMeal 1714563600000 WriteOk
            (sample_meal "ramen" 436 "2024-05-01") one_pizza).1).1
    = getTodaysMeals "2024-05-01" one_pizza.
Proof.
  assert (pretty 1714563600000 ∉ id <$> meals one_pizza) as Hfresh.
  { apply (bool_decide_unpack _). vm_compute. exact I. }
  split; [exact Hfresh |].
  apply (addMeal_removeMeal_round_trip one_pizza 1714563600000 WriteOk WriteOk
           (sample_meal "ramen" 436 "2024-05-01") "2024-05-01" Hfresh).
Defined.

(** When the ledger already holds an entry with the id of the append,
    removing that id removes both. *)
Lemma addMeal_removeMeal_loses_entry :
  food_label <$> getTodaysMeals "2024-05-01" one_pizza = ["pizza"]
  ∧ getTodaysMeals "2024-05-01"
      (removeMeal WriteOk (pretty 1714560000000)
         (addMeal 1714560000000 WriteOk
            (sample_meal "ramen" 436 "2024-05-01") one_pizza).1).1
    = []
  ∧ getTodaysMeals "2024-05-01"
      (removeMeal WriteOk (pretty 1714560000000)
         (addMeal 1714560000000 WriteOk
            (sample_meal "ramen" 436 "2024-05-01") one_pizza).1).1
    ≠ getTodaysMeals "2024-05-01" one_pizza.
Proof.
  split_and?; [vm_compute; reflexivity | vm_compute; reflexivity |].
  intros Heq. apply (f_equal length) in Heq. vm_compute in Heq.
  discriminate Heq.
Qed.

End NutritionProviderFacts.

(** ** Properties of [formatFoodLabel] *)

Module FormatFacts.
Import JS NutritionLogic Shapes Spec.

Ltac each_char c :=
  destruct c as [[] [] [] [] [] [] [] []]; vm_compute.

Lemma lower_char_idempotent (c : ascii) :
  lower_char (lower_char c) = lower_char c.
Proof. each_char c; reflexivity. Qed.

Lemma lower_char_underscore (c : ascii) :
  Ascii.eqb (lower_char c) "_" = Ascii.eqb c "_".
Proof. each_char c; reflexivity. Qed.

Lemma lower_char_whitespace (c : ascii) :
  is_whitespace (lower_char c) = is_whitespace c.
Proof. each_char c; reflexivity. Qed.

Lemma lower_char_ascii (c : ascii) :
  (code c <? 128)%N = true → (code (lower_char c) <? 128)%N = true.
Proof. each_char c; intros H; first [reflexivity | discriminate H]. Qed.

(** The capital of an ASCII character is one character, which lower-cases
    back to where it came from and is no underscore. *)
Lemma upper_char_ascii (c : ascii) :
  (code c <? 128)%N = true →
  upper_char c = Some (String (capital_of c) EmptyString)
  ∧ lower_char (capital_of c) = lower_char c
  ∧ Ascii.eqb (capital_of c) "_" = Ascii.eqb c "_".
Proof.
  each_char c; intros H; first [discriminate H | split_and?; reflexivity].
Qed.

Lemma toLowerCase_idempotent (s : string) :
  toLowerCase (toLowerCase s) = toLowerCase s.
Proof.
  induction s as [|c s IH]; simpl; [done|].
  by rewrite lower_char_idempotent, IH.
Qed.

Lemma toLowerCase_app (a b : string) :
  toLowerCase (a +:+ b) = toLowerCase a +:+ toLowerCase b.
Proof. induction a as [|c a IH]; simpl; [done | by rewrite IH]. Qed.

Lemma toLowerCase_join (words : list string) :
  toLowerCase (join " " words) = join " " (toLowerCase <$> words).
Proof.
  induction words as [|w ws IH]; [done|].
  destruct ws as [|w' ws]; [done|].
  change (join " " (w :: w' :: ws)) with (w +:+ " " +:+ join " " (w' :: ws)).
  rewrite !toLowerCase_app, IH. done.
Qed.

Lemma split_on_cons (sep c : ascii) (s : string) :
  ∃ w ws, split_on sep s = w :: ws
          ∧ split_on sep (String c s) =
              if Ascii.eqb c sep then EmptyString :: w :: ws
              else String c w :: ws.
Proof.
  assert (∃ w ws, split_on sep s = w :: ws) as (w & ws & Hs).
  { destruct s as [|c' s]; simpl; [by eexists _, _|].
    destruct (Ascii.eqb c' sep); [by eexists _, _|].
    destruct (split_on sep s); by eexists _, _. }
  exists w, ws. split; [done|]. simpl. rewrite Hs. done.
Qed.

Lemma toLowerCase_split (s : string) :
  toLowerCase <$> split_on "_" s = split_on "_" (toLowerCase s).
Proof.
  induction s as [|c s IH]; [done|].
  destruct (split_on_cons "_" c s) as (w & ws & Hs & ->).
  change (toLowerCase (String c s))
    with (String (lower_char c) (toLowerCase s)).
  destruct (split_on_cons "_" (lower_char c) (toLowerCase s))
    as (w' & ws' & Hs' & ->).
  rewrite lower_char_underscore. rewrite Hs in IH. rewrite Hs' in IH.
  simpl in IH. injection IH as Hw Hws.
  destruct (Ascii.eqb c "_"); simpl; by rewrite Hw, Hws.
Qed.

(** Joining the pieces with a space turns each underscore into a space. *)
Lemma join_split (s : string) :
  join " " (split_on "_" s) = underscores_to_spaces s.
Proof.
  induction s as [|c s IH]; [done|].
  destruct (split_on_cons "_" c s) as (w & ws & Hs & ->).
  rewrite Hs in IH. simpl underscores_to_spaces.
  destruct (Ascii.eqb c "_").
  - change (join " " (EmptyString :: w :: ws))
      with (String " " (join " " (w :: ws))). by rewrite IH.
  - destruct ws as [|w' ws]; simpl in *; by rewrite <- IH.
Qed.

(** *** Labels of ASCII characters *)

Lemma plain_from_all_ascii (s : string) (after_underscore : bool) :
  plain_from after_underscore s = true → all_ascii s = true.
Proof.
  revert after_underscore. induction s as [|c s IH]; intros b; simpl; [done|].
  intros [[Hc _]%andb_prop Hs]%andb_prop. rewrite Hc. simpl.
  destruct (Ascii.eqb c "_"); [apply andb_prop in Hs as [_ Hs]|]; eauto.
Qed.

Lemma all_ascii_toLowerCase (s : string) :
  all_ascii s = true → all_ascii (toLowerCase s) = true.
Proof.
  induction s as [|c s IH]; simpl; [done|].
  intros [Hc Hs]%andb_prop. by rewrite (lower_char_ascii c Hc), IH.
Qed.

Lemma all_ascii_split (sep : ascii) (s : string) :
  all_ascii s = true →
  Forall (λ w, all_ascii w = true) (split_on sep s).
Proof.
  induction s as [|c s IH]; [by repeat constructor|].
  destruct (split_on_cons sep c s) as (w & ws & Hs & ->).
  simpl. intros [Hc Hrest]%andb_prop. specialize (IH Hrest).
  rewrite Hs in IH. apply Forall_cons in IH as [Hw Hws].
  destruct (Ascii.eqb c sep); repeat constructor; try done.
  simpl. by rewrite Hc, Hw.
Qed.

Lemma capitalize_ascii (w : string) :
  all_ascii w = true →
  ∃ w', capitalize w = Some w' ∧ toLowerCase w' = toLowerCase w
        ∧ contains "_" w' = contains "_" w.
Proof.
  destruct w as [|c w]; simpl; [by eexists|].
  intros [Hc _]%andb_prop.
  destruct (upper_char_ascii c Hc) as (-> & Hlow & Hus).
  eexists. split; [reflexivity|]. simpl. by rewrite Hlow, Hus.
Qed.

Lemma mapM_capitalize_ascii (ws : list string) :
  Forall (λ w, all_ascii w = true) ws →
  ∃ caps, mapM capitalize ws = Some caps
          ∧ toLowerCase <$> caps = toLowerCase <$> ws
          ∧ contains "_" <$> caps = contains "_" <$> ws.
Proof.
  induction 1 as [|w ws Hw _ (caps & Hcaps & Hlow & Hus)]; [by eexists|].
  destruct (capitalize_ascii w Hw) as (w' & Hw' & Hlow' & Hus').
  exists (w' :: caps). split_and?.
  - simpl. rewrite Hw'. simpl. by rewrite Hcaps.
  - rewrite !fmap_cons. by rewrite Hlow, Hlow'.
  - rewrite !fmap_cons. by rewrite Hus, Hus'.
Qed.

(** The display form of an ASCII label, lower-cased again, is the
    lower-cased label with its underscores turned into spaces. *)
Lemma formatFoodLabel_ascii (label : string) :
  all_ascii label = true →
  ∃ display, formatFoodLabel label = Some display
             ∧ toLowerCase display = underscores_to_spaces (toLowerCase label).
Proof.
  intros Hascii. unfold formatFoodLabel.
  destruct (mapM_capitalize_ascii (split_on "_" (toLowerCase label)))
    as (caps & -> & Hlow & _).
  { by apply all_ascii_split, all_ascii_toLowerCase. }
  eexists. split; [reflexivity|].
  rewrite toLowerCase_join, Hlow, toLowerCase_split, toLowerCase_idempotent.
  apply join_split.
Qed.

(** *** Plain labels *)

Lemma plain_from_toLowerCase (s : string) (after_underscore : bool) :
  plain_from after_underscore s = true →
  plain_from after_underscore (toLowerCase s) = true.
Proof.
  revert after_underscore. induction s as [|c s IH]; intros b; simpl; [done|].
  rewrite lower_char_whitespace, lower_char_underscore.
  intros [[Hc Hws]%andb_prop Hs]%andb_prop.
  rewrite (lower_char_ascii c Hc), Hws. simpl.
  destruct (Ascii.eqb c "_").
  - apply andb_prop in Hs as [-> Hs]. simpl. by apply IH.
  - by apply IH.
Qed.

Lemma replace_ws_plain (s : string) (after_underscore in_run : bool) :
  plain_from after_underscore s = true → replace_ws_from in_run s = s.
Proof.
  revert after_underscore in_run.
  induction s as [|c s IH]; intros b r; simpl; [done|].
  intros [[_ Hws]%andb_prop Hs]%andb_prop.
  apply negb_true_iff in Hws. rewrite Hws. f_equal.
  destruct (Ascii.eqb c "_"); [apply andb_prop in Hs as [_ Hs]|]; eauto.
Qed.

Lemma replace_ws_spaces (s : string) (after_underscore : bool) :
  plain_from after_underscore s = true →
  replace_ws_from after_underscore (underscores_to_spaces s) = s.
Proof.
  revert after_underscore.
  induction s as [|c s IH]; intros b; simpl; [done|].
  intros [[_ Hws]%andb_prop Hs]%andb_prop. apply negb_true_iff in Hws.
  destruct (Ascii.eqb c "_") eqn:Hc.
  - apply andb_prop in Hs as [Hb Hs]. apply negb_true_iff in Hb. subst b.
    apply Ascii.eqb_eq in Hc. subst c. simpl. f_equal. by apply IH.
  - rewrite Hws. f_equal. by apply IH.
Qed.

(** X10.  For every label of ASCII characters without whitespace and
    without two underscores in a row, [formatFoodLabel] gives a display
    form, and the display form normalizes to what the label normalizes to:
    [getNutritionInfo] resolves the display form as it resolves the
    label. *)
Theorem formatFoodLabel_resolves_alike (label : string) :
  plain_label label = true →
  ∃ display, formatFoodLabel label = Some display
             ∧ normalize display = normalize label
             ∧ getNutritionInfo display = getNutritionInfo label.
Proof.
  intros Hplain.
  destruct (formatFoodLabel_ascii label) as (display & Hd & Hlow).
  { by eapply plain_from_all_ascii. }
  assert (normalize display = normalize label) as Hnorm.
  { unfold normalize, replace_whitespace_runs. rewrite Hlow.
    pose proof (plain_from_toLowerCase label false Hplain) as Hlower.
    rewrite (replace_ws_spaces _ false Hlower).
    by rewrite (replace_ws_plain _ false false Hlower). }
  exists display. split_and?; [done | done |].
  unfold getNutritionInfo. fold (normalize display) (normalize label).
  by rewrite Hnorm.
Qed.

Lemma formatFoodLabel_resolves_alike_witness :
  plain_label "Chicken_Quesadilla" = true
  ∧ ∃ display, formatFoodLabel "Chicken_Quesadilla" = Some display
               ∧ normalize display = normalize "Chicken_Quesadilla"
               ∧ getNutritionInfo display = getNutritionInfo "Chicken_Quesadilla".
Proof.
  split; [vm_compute; reflexivity |].
  apply (formatFoodLabel_resolves_alike "Chicken_Quesadilla").
  vm_compute. reflexivity.
Defined.

(** X11.  Every key of the nutrition table has a display form, and the
    display form resolves to the fact of that key. *)
Theorem formatFoodLabel_table (key : string) (fact : nutrition) :
  FOOD_101_NUTRITION_MAP !! key = Some fact →
  ∃ display, formatFoodLabel key = Some display
             ∧ getNutritionInfo display = Own fact.
Proof.
  intros Hkey.
  assert (map_Forall (λ k _, plain_label k = true ∧ normalize k = k)
            FOOD_101_NUTRITION_MAP) as Hkeys.
  { apply (bool_decide_unpack _). vm_compute. exact I. }
  destruct (Hkeys key fact Hkey) as [Hplain Hnorm].
  destruct (formatFoodLabel_resolves_alike key Hplain)
    as (display & Hd & _ & Hinfo).
  exists display. split; [done|]. rewrite Hinfo.
  unfold getNutritionInfo, get, or_else. fold (normalize key).
  by rewrite Hnorm, Hkey.
Qed.

Lemma formatFoodLabel_table_witness :
  FOOD_101_NUTRITION_MAP !! "hot_and_sour_soup"
    = Some {| calories := 90; unit := "bowl" |}
  ∧ ∃ display, formatFoodLabel "hot_and_sour_soup" = Some display
               ∧ getNutritionInfo display
                 = Own {| calories := 90; unit := "bowl" |}.
Proof.
  assert (FOOD_101_NUTRITION_MAP !! "hot_and_sour_soup"
          = Some {| calories := 90; unit := "bowl" |}) as Hkey
    by (vm_compute; reflexivity).
  split; [exact Hkey |].
  exact (formatFoodLabel_table "hot_and_sour_soup" _ Hkey).
Defined.

(** *** The display form has no underscore *)









End FormatFacts.

(** ** Properties of the health checks *)

Module HealthFacts.
Import JS ApiClient Samples.

(** X13.  The health checks never throw: each resolves with [true] when
    [/health] is answered with a status in 200-299, whatever the payload,
    and with [false] on a timeout, a transport error or any other
    status. *)
Theorem health_checks_report (modelApi_get geminiApi_get : string → exchange) :
  checkModelHealth modelApi_get
    = Fulfilled (negb (request_fails (modelApi_get "/health")))
  ∧ checkGeminiHealth geminiApi_get
    = Fulfilled (negb (request_fails (geminiApi_get "/health"))).
Proof.
  unfold checkModelHealth, checkGeminiHealth. split.
  - destruct (modelApi_get "/health") as [| |r]; simpl; try done.
    by destruct ((200 <=? status r) && (status r <? 300)).
  - destruct (geminiApi_get "/health") as [| |r]; simpl; try done.
    by destruct ((200 <=? status r) && (status r <? 300)).
Qed.

End HealthFacts.

(** ** Properties of the ledger and of the start of the provider *)

Module PersistenceFacts.
Import JS NutritionContext NutritionProvider Startup Samples.
Local Open Scope list_scope.

(** *** Removal *)


(** X15.  [removeMeal] rewrites the whole collection also when the id is
    absent: the call then changes nothing in memory, but it throws when
    the write fails. *)
Theorem removeMeal_absent_still_writes (st : state) (mealId reason : string) :
  mealId ∉ id <$> meals st →
  removeMeal (WriteFails reason) mealId st = (st, Rejected reason)
  ∧ removeMeal WriteOk mealId st =
      ({| profile := profile st; meals := meals st;
          storage := <[MEALS_STORAGE_KEY := StoredMeals (meals st)]> (storage st) |},
       Fulfilled tt).
Proof.
  intros Habsent.
  assert (filter (λ meal, id meal ≠ mealId) (meals st) = meals st) as Hsame.
  { induction (meals st) as [|m l IH]; [done|].
    rewrite fmap_cons, not_elem_of_cons in Habsent.
    destruct Habsent as [Hm Hl].
    rewrite filter_cons_True by done. by rewrite IH. }
  unfold removeMeal, try_catch_effect, then_, setMealsState,
    AsyncStorage_setItem, throw. simpl. rewrite Hsame.
  by destruct st.
Qed.

Lemma removeMeal_absent_still_writes_witness :
  ("1714563600000" ∉ id <$> meals one_pizza)
  ∧ removeMeal (WriteFails "disk full") "1714563600000" one_pizza
    = (one_pizza, Rejected "disk full").
Proof.
  assert ("1714563600000" ∉ id <$> meals one_pizza) as Habsent.
  { apply (bool_decide_unpack _). vm_compute. exact I. }
  split; [exact Habsent |].
  apply (removeMeal_absent_still_writes one_pizza "1714563600000" "disk full"
           Habsent).
Defined.

(** *** What a mutation leaves alone *)

(** X16.  Whether its write succeeds or fails, [setProfile] leaves the
    meal collection and what the store holds under the meals key alone,
    and [addMeal] and [removeMeal] leave the profile and what the store
    holds under the profile key alone. *)
Theorem mutations_keep_to_their_record (st : state) (w : write) (now : Z)
    (meal : MealLogEntry) (mealId : string) (newProfile : UserProfile) :
  let after_profile := (setProfile w newProfile st).1 in
  let after_add := (addMeal now w meal st).1 in
  let after_remove := (removeMeal w mealId st).1 in
  meals after_profile = meals st
  ∧ storage after_profile !! MEALS_STORAGE_KEY = storage st !! MEALS_STORAGE_KEY
  ∧ profile after_add = profile st
  ∧ storage after_add !! PROFILE_STORAGE_KEY = storage st !! PROFILE_STORAGE_KEY
  ∧ profile after_remove = profile st
  ∧ storage after_remove !! PROFILE_STORAGE_KEY
    = storage st !! PROFILE_STORAGE_KEY.
Proof.
  intros after_profile after_add after_remove.
  subst after_profile after_add after_remove.
  destruct w; split_and?; try done; simpl; by rewrite lookup_insert_ne.
Qed.

(** *** The store after a session *)

Lemma perform_successful_write (st : state) (a : action) :
  write_of a = WriteOk →
  storage (perform st a) !! MEALS_STORAGE_KEY
    = Some (StoredMeals (meals (perform st a))).
Proof.
  destruct a as [now w meal | w mealId]; simpl; intros ->; simpl;
    by rewrite lookup_insert_eq.
Qed.


(** X17.  After a session whose last operation wrote successfully, the
    store holds the whole in-memory collection, the entries included
    whose own write had failed earlier in the session. *)
Theorem successful_write_persists_all (actions : list action) (a : action)
    (st : state) :
  write_of a = WriteOk →
  storage (run (actions ++ [a]) st) !! MEALS_STORAGE_KEY
    = Some (StoredMeals (meals (run (actions ++ [a]) st))).
Proof.
  intros Hok. unfold run. rewrite fold_left_app. simpl.
  by apply perform_successful_write.
Qed.

Lemma successful_write_persists_all_witness :
  write_of (AddMeal 1714563600000 WriteOk
              (sample_meal "hamburger" 295 "2024-05-01")) = WriteOk
  ∧ storage (run session initial) !! MEALS_STORAGE_KEY
    = Some (StoredMeals (meals (run session initial)))
  ∧ food_label <$> meals (run session initial) = ["ramen"; "hamburger"].
Proof.
  split_and?; [reflexivity | | vm_compute; reflexivity].
  apply (successful_write_persists_all
           [ AddMeal 1714560000000 WriteOk (sample_meal "pizza" 266 "2024-05-01");
             AddMeal 1714560000001 (WriteFails "disk full")
               (sample_meal "ramen" 436 "2024-05-01");
             RemoveMeal WriteOk "1714560000000" ]
           (AddMeal 1714563600000 WriteOk
              (sample_meal "hamburger" 295 "2024-05-01"))
           initial).
  reflexivity.
Defined.

(** *** The start of the provider *)

(** X18.  When either of the two reads fails, [loadData] loads nothing:
    the profile and the meals stay as they were, even if the other read
    succeeded; the failure is not thrown, the loading flag is cleared and
    the store is not written. *)
Theorem loadData_read_failure (p : provider) (reason : string)
    (profileData : item UserProfile) (mealsData : item (list MealLogEntry)) :
  profileData = ItemFails reason ∨ mealsData = ItemFails reason →
  loadData profileData mealsData p
    = {| current := current p; isLoading := false |}.
Proof.
  unfold loadData. intros [-> | ->]; [done|].
  by destruct profileData.
Qed.

Lemma loadData_read_failure_witness :
  (ItemValue (meals one_pizza) = ItemFails "storage unavailable"
   ∨ (ItemFails "storage unavailable" : item (list MealLogEntry))
     = ItemFails "storage unavailable")
  ∧ loadData ItemAbsent (ItemFails "storage unavailable")
      (mounted (storage one_pizza))
    = {| current := current (mounted (storage one_pizza));
         isLoading := false |}.
Proof.
  split; [by right |].
  apply (loadData_read_failure (mounted (storage one_pizza))
           "storage unavailable" ItemAbsent
           (ItemFails "storage unavailable")).
  by right.
Defined.

(** X19.  A profile text that is not JSON keeps the meals from being
    loaded, although the meals text is sound; a meals text that is not
    JSON does not keep the profile from being loaded.  Neither is
    thrown. *)
Theorem loadData_malformed (p : provider) (stored_profile : UserProfile)
    (stored_meals : list MealLogEntry) :
  loadData ItemMalformed (ItemValue stored_meals) p
    = {| current := current p; isLoading := false |}
  ∧ loadData (ItemValue stored_profile) ItemMalformed p
    = {| current := {| profile := Some stored_profile;
                       meals := meals (current p);
                       storage := storage (current p) |};
         isLoading := false |}.
Proof. split; reflexivity. Qed.









End PersistenceFacts.

(** ** Properties of the scan screen *)

Module ScanFacts.
Import JS ApiClient NutritionLogic Samples Shapes.
Import NutritionContext NutritionProvider ScanScreen.
Local Open Scope list_scope.

Section Analysis.

Variable Platform_OS : string.
Variable fetch_blob : string → settled string.
Variable modelApi : string → body → exchange.

(** X22.  With a photo chosen, [handleAnalyzeFood] always clears the
    loading flag and ends on the result screen or back on the preview.  It
    ends on the result screen only with a payload that [predictFood]
    resolved with and whose [label] is truthy, and keeps that payload as
    the prediction.  When the classification call fails it ends on the
    preview with the alert 'Failed to analyze image', and the prediction
    is as it was. *)
Theorem handleAnalyzeFood_outcome (s : screen) (image : string) :
  selectedImage s = Some image →
  image ≠ EmptyString →
  let s' := handleAnalyzeFood Platform_OS fetch_blob modelApi s in
  isLoading s' = false
  ∧ (scanState s' = result ∨ scanState s' = preview)
  ∧ (scanState s' = result →
       ∃ payload,
         predictFood Platform_OS fetch_blob modelApi image false
           = Fulfilled payload
         ∧ member_truthy "label" payload = true
         ∧ prediction s' = Some payload)
  ∧ (classification_fails Platform_OS fetch_blob modelApi image false = true →
       s' = show AnalysisFailed (analysed preview (prediction s) s)).
Proof.
  intros Himage Hnonempty s'. subst s'. unfold handleAnalyzeFood.
  rewrite Himage.
  destruct (String.eqb image EmptyString) eqn:Hempty;
    [by apply String.eqb_eq in Hempty|].
  destruct (predictFood _ _ _ image false) as [payload | reason] eqn:Hpredict.
  - assert (classification_fails Platform_OS fetch_blob modelApi image false
            = false) as Hok.
    { destruct (classification_fails _ _ _ image false) eqn:Hfails; [|done].
      unfold predictFood, classification_fails, post in *.
      destruct (image_form _ _ _ _) as [formData | r]; simpl in *; [|done].
      destruct (ApiClientFacts.axios_settle_fails _ Hfails) as [r Hr].
      by rewrite Hr in Hpredict. }
    rewrite Hok.
    destruct (json_truthy payload && member_truthy "label" payload) eqn:Hlabel.
    + apply andb_prop in Hlabel as [_ Hlabel]. split_and?; simpl; eauto. done.
    + split_and?; simpl; eauto; done.
  - split_and?; simpl; eauto. done.
Qed.

End Analysis.

Lemma handleAnalyzeFood_outcome_witness :
  selectedImage photo_chosen = Some "file:///cache/photo.jpg"
  ∧ scanState (handleAnalyzeFood "android" fetch_ok
                 (always (answer 200 (predicted "pizza"))) photo_chosen)
    = result
  ∧ scanState (handleAnalyzeFood "android" fetch_ok
                 (always (answer 200 (JObject []))) photo_chosen)
    = preview
  ∧ isLoading (handleAnalyzeFood "android" fetch_ok
                 (always (answer 200 (JObject []))) photo_chosen)
    = false.
Proof.
  split; [reflexivity |].
  split; [vm_compute; reflexivity |].
  split; [vm_compute; reflexivity |].
  apply (handleAnalyzeFood_outcome "android" fetch_ok
           (always (answer 200 (JObject []))) photo_chosen
           "file:///cache/photo.jpg"); [reflexivity | done].
Defined.

(** *** Logging the meal *)

Lemma total_calories_app (today today' : string) (st st' : state)
    (entry : MealLogEntry) :
  getTodaysMeals today' st' = getTodaysMeals today' st ++ [entry] →
  total_calories (getTodaysSummary today today' st')
    = (total_calories (getTodaysSummary today today' st)
       + NutritionContext.calories entry)%float.
Proof.
  intros Happ. unfold getTodaysSummary. cbn [total_calories].
  by rewrite Happ, fold_left_app.
Qed.

(** X23.  When the prediction has a string label that [getNutritionInfo]
    resolves to a fact, [handleLogMeal] appends one entry for the day of
    the handler's clock, whether or not the write succeeds: the entry
    carries the label as predicted, the unit of the fact and the calories
    of the fact times the quantity, it is the last of that day's meals,
    and that day's [total_calories] grows by exactly its calories. *)
Theorem handleLogMeal_adds_calories (s : screen) (st : state)
    (payload : json) (label : string) (fact : nutrition)
    (day clock summary_day : string) (now : Z) (w : write) :
  prediction s = Some payload →
  field "label" payload = Some (JString label) →
  getNutritionInfo label = Own fact →
  ∃ s' st',
    handleLogMeal day clock now w s st = Some (s', st')
    ∧ meals st' = meals st
        ++ [logged_entry label fact (quantity s) day clock now]
    ∧ getTodaysMeals day st' = getTodaysMeals day st
        ++ [logged_entry label fact (quantity s) day clock now]
    ∧ total_calories (getTodaysSummary summary_day day st')
      = (total_calories (getTodaysSummary summary_day day st)
         + NutritionLogic.calories fact * quantity s)%float.
Proof.
  intros Hprediction Hlabel Hfact.
  unfold handleLogMeal, meal_of. rewrite Hprediction, Hlabel, Hfact. simpl.
  set (meal := {| NutritionContext.id := EmptyString |}).
  assert (meals (addMeal now w meal st).1
          = meals st ++ [logged_entry label fact (quantity s) day clock now])
    as Hmeals by (by destruct w).
  assert (getTodaysMeals day (addMeal now w meal st).1
          = getTodaysMeals day st
              ++ [logged_entry label fact (quantity s) day clock now])
    as Htoday.
  { unfold getTodaysMeals. rewrite Hmeals, filter_app.
    by rewrite filter_cons_True, filter_nil. }
  exists (match w with
          | WriteOk =>
              show (MealLogged (formatFoodLabel label)
                      (NutritionContext.calories meal)) s
          | WriteFails _ => show LogMealFailed s
          end), (addMeal now w meal st).1.
  split; [by destruct w|].
  split; [exact Hmeals|]. split; [exact Htoday|].
  exact (total_calories_app summary_day day st _ _ Htoday).
Qed.

Lemma handleLogMeal_adds_calories_witness :
  ScanScreen.prediction (showing "Hamburger" 2) = Some (predicted "Hamburger")
  ∧ getNutritionInfo "Hamburger" = Own {| NutritionLogic.calories := 295; NutritionLogic.unit := "burger" |}
  ∧ total_calories (getTodaysSummary "2024-05-01" "2024-05-01" scenario)
    = 1495%float
  ∧ ∃ s' st',
      handleLogMeal "2024-05-01" "19:05" 1714590300000 WriteOk
        (showing "Hamburger" 2) scenario = Some (s', st')
      ∧ total_calories (getTodaysSummary "2024-05-01" "2024-05-01" st')
        = 2085%float.
Proof.
  assert (getNutritionInfo "Hamburger"
          = Own {| NutritionLogic.calories := 295; NutritionLogic.unit := "burger" |}) as Hfact
    by (vm_compute; reflexivity).
  split_and?; [reflexivity | exact Hfact | vm_compute; reflexivity |].
  destruct (handleLogMeal_adds_calories (showing "Hamburger" 2) scenario
              (predicted "Hamburger") "Hamburger" _
              "2024-05-01" "19:05" "2024-05-01" 1714590300000 WriteOk
              eq_refl eq_refl Hfact)
    as (s' & st' & Hlog & _ & _ & Htotal).
  exists s', st'. split; [exact Hlog|].
  rewrite Htotal. vm_compute. reflexivity.
Defined.




End ScanFacts.

(** ** Properties of the dashboard *)

Module DashboardFacts.
Import JS ApiClient Samples Shapes.
Import NutritionContext NutritionProvider Dashboard.
Local Open Scope list_scope.

Section Coach.

Variable geminiApi : string → body → exchange.
Variables (summary_day meals_day : string) (st : state) (d : dashboard).

(** X26.  Without a profile, or without a meal today, [fetchCoachingTip]
    sets the tip to [null] and leaves the loading flag alone, whatever the
    coaching service would do. *)
Theorem fetchCoachingTip_nothing_to_coach :
  profile st = None ∨ getTodaysMeals meals_day st = [] →
  fetchCoachingTip geminiApi summary_day meals_day st d
    = {| coachingTip := TipNull; loadingCoaching := loadingCoaching d |}.
Proof.
  unfold fetchCoachingTip. intros [-> | ->]; [done|].
  by destruct (profile st).
Qed.

(** X27.  With a profile and a meal today, when the coaching request fails
    (a timeout, a transport error, a status outside 200-299) the tip shown
    is the fallback text naming the last of today's meals, and the
    loading flag is cleared. *)
Theorem fetchCoachingTip_service_down (p : UserProfile)
    (lastMeal : MealLogEntry) :
  profile st = Some p →
  last (getTodaysMeals meals_day st) = Some lastMeal →
  request_fails (geminiApi "/coaching" (request_for summary_day st p lastMeal)) = true →
  fetchCoachingTip geminiApi summary_day meals_day st d
    = {| coachingTip :=
           TipValue (JString ("You've logged " +:+ food_label lastMeal
                                +:+ ". Keep tracking your meals!"));
         loadingCoaching := false |}.
Proof.
  intros Hp Hlast Hfails. unfold fetchCoachingTip. rewrite Hp, Hlast.
  unfold getCoachingTip, post. simpl default.
  change (coaching_request _ _ _ _ _) with (request_for summary_day st p lastMeal).
  destruct (ApiClientFacts.axios_settle_fails _ Hfails) as [reason ->].
  reflexivity.
Qed.

(** X28.  With a profile and a meal today, when the coaching request is
    answered with a status in 200-299 and a payload that is an object
    with a [coaching_tip], the tip shown is that [coaching_tip] as
    received. *)
Theorem fetchCoachingTip_shows_answer (p : UserProfile)
    (lastMeal : MealLogEntry) (r : response)
    (fields : list (string * json)) (text : json) :
  profile st = Some p →
  last (getTodaysMeals meals_day st) = Some lastMeal →
  geminiApi "/coaching" (request_for summary_day st p lastMeal) = Answer r →
  request_fails (Answer r) = false →
  data r = JObject fields →
  field "coaching_tip" (JObject fields) = Some text →
  fetchCoachingTip geminiApi summary_day meals_day st d
    = {| coachingTip := TipValue text; loadingCoaching := false |}.
Proof.
  intros Hp Hlast Hanswer Hok Hdata Htext.
  unfold fetchCoachingTip. rewrite Hp, Hlast.
  unfold getCoachingTip, post. simpl default.
  change (coaching_request _ _ _ _ _) with (request_for summary_day st p lastMeal).
  rewrite Hanswer.
  destruct (ApiClientFacts.axios_settle_answers _ Hok) as (r' & [= <-] & ->).
  simpl. rewrite Hdata. by rewrite Htext.
Qed.

End Coach.

Lemma fetchCoachingTip_nothing_to_coach_witness :
  (profile scenario = None
   ∨ getTodaysMeals "2024-05-01" scenario = [])
  ∧ fetchCoachingTip (always Timeout) "2024-05-01" "2024-05-01" scenario no_tip
    = no_tip.
Proof.
  split; [by left |].
  apply (fetchCoachingTip_nothing_to_coach (always Timeout)
           "2024-05-01" "2024-05-01" scenario no_tip).
  by left.
Defined.

Lemma fetchCoachingTip_service_down_witness :
  food_label <$> last (getTodaysMeals "2024-05-01" scenario_with_profile)
    = Some "hamburger"
  ∧ fetchCoachingTip (always Timeout) "2024-05-01" "2024-05-01"
      scenario_with_profile no_tip
    = {| coachingTip :=
           TipValue
             (JString "You've logged hamburger. Keep tracking your meals!");
         loadingCoaching := false |}.
Proof.
  split; [vm_compute; reflexivity |].
  apply (fetchCoachingTip_service_down (always Timeout)
           "2024-05-01" "2024-05-01" scenario_with_profile no_tip
           sample_profile
           {| id := "1714563600000"; date := "2024-05-01"; time := "12:30";
              food_label := "hamburger"; calories := 295; quantity := 1;
              unit := "serving" |});
    vm_compute; reflexivity.
Defined.

Lemma fetchCoachingTip_shows_answer_witness :
  request_for "2024-05-01" scenario_with_profile sample_profile
    {| id := "1714563600000"; date := "2024-05-01"; time := "12:30";
       food_label := "hamburger"; calories := 295; quantity := 1;
       unit := "serving" |}
    = coaching_request 2500 1200 "hamburger" 295 maintain
  ∧ fetchCoachingTip
      (always (answer 200 (JObject [("coaching_tip", JString "Well done!")])))
      "2024-05-01" "2024-05-01" scenario_with_profile no_tip
    = {| coachingTip := TipValue (JString "Well done!");
         loadingCoaching := false |}.
Proof.
  split; [vm_compute; reflexivity |].
  apply (fetchCoachingTip_shows_answer
           (always (answer 200 (JObject [("coaching_tip", JString "Well done!")])))
           "2024-05-01" "2024-05-01" scenario_with_profile no_tip
           sample_profile
           {| id := "1714563600000"; date := "2024-05-01"; time := "12:30";
              food_label := "hamburger"; calories := 295; quantity := 1;
              unit := "serving" |}
           {| status := 200;
              data := JObject [("coaching_tip", JString "Well done!")] |}
           [("coaching_tip", JString "Well done!")] (JString "Well done!"));
    vm_compute; reflexivity.
Defined.

End DashboardFacts.

(** ** The profile screen *)

Module ProfileFacts.
Import JS NutritionContext NutritionProvider ProfileScreen Samples Shapes.

Lemma SFcompare_antisym (x y : spec_float) :
  SFcompare y x = CompOpp <$> SFcompare x y.
Proof.
  destruct x as [[]|[]| |[] m e], y as [[]|[]| |[] m' e']; try reflexivity;
    cbn [SFcompare fmap option_fmap option_map];
    rewrite (Z.compare_antisym e e');
    destruct (e ?= e')%Z; cbn [CompOpp]; try reflexivity;
    rewrite ?Pos.compare_cont_antisym; cbn [CompOpp];
    rewrite ?Pos.compare_cont_antisym; reflexivity.
Qed.

Lemma SFeqb_refl (x : spec_float) :
  SFeqb x x = match x with S754_nan => false | _ => true end.
Proof.
  unfold SFeqb.
  destruct x as [[]|[]| |[] m e]; try reflexivity;
    cbn [SFcompare]; rewrite Z.compare_refl, Pos.compare_cont_refl;
    reflexivity.
Qed.

(** The two comparisons of the form against a bound that is a number. *)
Lemma range_check (x hi : float) :
  is_NaN hi = false →
  negb (x <=? 0)%float && negb (hi <? x)%float = passes hi x.
Proof.
  unfold passes, is_NaN.
  rewrite !FloatAxioms.leb_spec, !FloatAxioms.ltb_spec, !FloatAxioms.eqb_spec.
  change (Prim2SF 0) with (S754_zero false).
  generalize (Prim2SF x) (Prim2SF hi). intros sx sh.
  rewrite !SFeqb_refl. unfold SFleb, SFltb.
  rewrite (SFcompare_antisym sx sh).
  rewrite (SFcompare_antisym sx (S754_zero false)).
  destruct sh as [s'|s'| |s' m' e']; try discriminate; intros _;
    destruct sx as [[]|[]| |[] m e]; try reflexivity;
    destruct s'; try reflexivity;
    cbn [SFcompare];
    match goal with
    | |- context [Some ?c] => destruct c
    end; reflexivity.
Qed.

(** X29.  [validateInputs] accepts a form exactly when none of the three
    fields is empty and each of the numbers read from them, by
    [parseFloat] for the weight and the height and by [parseInt] for the
    age, is within its range, [(0, 300]], [(0, 250]] and [(0, 150]], or is
    a not-a-number: text that does not start with a number passes. *)
Theorem validateInputs_accepts_iff (f : form) :
  (validateInputs f).2 = true
  ↔ weight f ≠ EmptyString ∧ height f ≠ EmptyString ∧ age f ≠ EmptyString
    ∧ passes 300 (parseFloat (weight f)) = true
    ∧ passes 250 (parseFloat (height f)) = true
    ∧ passes 150 (parseInt10 (age f)) = true.
Proof.
  unfold validateInputs.
  rewrite <- (range_check (parseFloat (weight f)) 300) by reflexivity.
  rewrite <- (range_check (parseFloat (height f)) 250) by reflexivity.
  rewrite <- (range_check (parseInt10 (age f)) 150) by reflexivity.
  destruct (String.eqb_spec (weight f) EmptyString) as [Hw | Hw],
    (String.eqb_spec (height f) EmptyString) as [Hh | Hh],
    (String.eqb_spec (age f) EmptyString) as [Ha | Ha];
    cbn [orb fst snd];
    try (split; [discriminate | intros (? & ? & ? & _); contradiction]).
  destruct (parseFloat (weight f) <=? 0)%float,
    (parseFloat (height f) <=? 0)%float,
    (parseInt10 (age f) <=? 0)%float,
    (300 <? parseFloat (weight f))%float,
    (250 <? parseFloat (height f))%float,
    (150 <? parseInt10 (age f))%float;
    cbn [orb andb negb fst snd];
    (split; [first [discriminate | intros _; by split_and?]
            | first [intros _; reflexivity
                    | intros (_ & _ & _ & ? & ? & ?); discriminate]]).
Qed.





End ProfileFacts.
